(** * daily-life-recorder: the entry and settings persistence layer

    A shallow embedding of the file-backed variant of the journal:
    - [Server]      the Express routes of server/server.js, with the body
                    parser and the router in front of them,
    - [DataService] the fetch wrappers of src/api/dataService.ts,
    - [AppProvider] the React state container of src/daily-life-recorder.tsx,
    - [Url], [JSON] what a request made by [DataService] carries: the path
                    that [fetch] makes of the URL, and the length of the body.

    Modelling conventions.
    - A JavaScript object whose properties hold strings (an [Entry], a
      [Partial<Entry>], the [customTexts] slots) is a finite map from property
      names to strings; an absent key is an absent (undefined) property.
    - The two data files are kept as the JSON value they parse to; [None]
      stands for a file that is missing or does not parse.  Values are the
      ones src/types.ts declares, with every property optional, since the
      files and the request bodies may omit any of them.
    - [JSON.stringify] followed by [JSON.parse] is taken to give back the
      value, so requests and responses carry values, not text.  Of the text
      of a request body the model keeps the length in bytes, which
      [express.json()] holds against its limit, and of the text of an
      imported file what that parser makes of it ([Server.Payload]).
    - A string is UTF-8 text, one character of the model being one byte.
    - The id in a request path goes through the URL parser of [fetch] and
      through the router of Express ([Url], [Server.entries_id]).  The HTTP
      server's limit on the size of a request head (16 KiB by default in
      Node) is not modelled; where a property says that a request succeeds,
      the id is bounded in length.
    - The clock, the outcome of each file write and the reachability of the
      server are inputs chosen by the environment. *)

From Stdlib Require Import ZArith DecimalString DecimalZ.
From stdpp Require Import gmap strings list fin_maps.

Open Scope string_scope.

(** ** JavaScript values *)

(** Objects with string-valued properties. *)
Abbreviation obj := (gmap string string) (only parsing).

(** Object spread [{ ...a, ...b }]: every property of [b], then those of [a]
    that [b] does not have. *)
Definition spread (a b : obj) : obj := b ∪ a.

(** [Date.now().toString()]: the decimal numeral of the millisecond clock. *)
Definition Number_toString (n : Z) : string := NilZero.string_of_int (Z.to_int n).

(** src/types.ts, [Settings]; a property is [None] when the object lacks it. *)
Inductive Theme : Set := light | dark.

Record Settings : Type := mkSettings {
  theme : option Theme;
  autoSave : option bool;
  showMoodOnCalendar : option bool;
  customTexts : option obj
}.

(** One top-level property of [{ ...under, ...over }]. *)
Definition overlay {A : Type} (over under : option A) : option A :=
  match over with
  | Some v => Some v
  | None => under
  end.

(** The backup envelope [{ entries, settings, exportDate }] as a request or
    response body; the import route only looks at [entries] and [settings]. *)
Record Backup : Type := mkBackup {
  backup_entries : option (list obj);
  backup_settings : option Settings;
  exportDate : option string
}.

(** ** The length of a request body *)

(** The length in bytes of [JSON.stringify(value)], which is the text that
    [fetch] sends as the body of a request. *)
Module JSON.

(** A character of a string literal: two bytes for each of the escapes
    [\b], [\t], [\n], [\f], [\r], the escaped double quote and the
    escaped backslash, six for any other control character ([\u00XX]), and
    one otherwise. *)
Definition char_length (c : Ascii.ascii) : N :=
  let n := Ascii.N_of_ascii c in
  if ((n =? 8) || (n =? 9) || (n =? 10) || (n =? 12) || (n =? 13)
      || (n =? 34) || (n =? 92))%N then 2%N
  else if (n <? 32)%N then 6%N
  else 1%N.

(** A string with its two quotes. *)
Fixpoint string_length (s : string) : N :=
  match s with
  | EmptyString => 2%N
  | String c s' => (char_length c + string_length s')%N
  end.

(** Members between braces or brackets, with a comma between two of them. *)
Definition bracketed (members : list N) : N :=
  (2 + foldr N.add 0 members + N.pred (N.of_nat (length members)))%N.

(** A property [key:value] of an object. *)
Definition member (key : string) (value_length : N) : N :=
  (string_length key + 1 + value_length)%N.

Definition object_length (o : obj) : N :=
  bracketed ((λ property, member property.1 (string_length property.2))
               <$> map_to_list o).

Definition array_length (entries : list obj) : N :=
  bracketed (object_length <$> entries).

Definition boolean_length (b : bool) : N := if b then 4%N else 5%N.

Definition settings_length (s : Settings) : N :=
  bracketed
    (omap id
       [ (λ t, member "theme" (string_length match t with
                                             | light => "light"
                                             | dark => "dark"
                                             end)) <$> theme s;
         (λ b, member "autoSave" (boolean_length b)) <$> autoSave s;
         (λ b, member "showMoodOnCalendar" (boolean_length b))
           <$> showMoodOnCalendar s;
         (λ texts, member "customTexts" (object_length texts)) <$> customTexts s ]).

End JSON.

(** ** The data directory *)

Record Disk : Type := mkDisk {
  entries_json : option (list obj);      (* src/data/entries.json *)
  settings_json : option Settings        (* src/data/settings.json *)
}.

Definition with_entries (file : option (list obj)) (d : Disk) : Disk :=
  {| entries_json := file; settings_json := settings_json d |}.

Definition with_settings (file : option Settings) (d : Disk) : Disk :=
  {| entries_json := entries_json d; settings_json := file |}.

(** What [fs.writeFile] does is up to the file system: it either commits the
    data, or rejects and leaves some [residue] at the path. *)
Inductive WriteOutcome (A : Type) : Type :=
| Committed
| Rejected (residue : option A).
Arguments Committed {A}.
Arguments Rejected {A} residue.

(** [readJSONFile(filePath, defaultValue)]: the parsed file, or the default
    when reading or parsing throws. *)
Definition readJSONFile {A : Type} (file : option A) (defaultValue : A) : A :=
  match file with
  | Some data => data
  | None => defaultValue
  end.

(** [writeJSONFile(filePath, data)]: the new file and the success flag. *)
Definition writeJSONFile {A : Type} (w : WriteOutcome A) (data : A) : option A * bool :=
  match w with
  | Committed => (Some data, true)
  | Rejected residue => (residue, false)
  end.

(** ** HTTP responses *)

Inductive ErrorStatus : Set :=
| BadRequest400 | NotFound404 | PayloadTooLarge413 | InternalServerError500.

Inductive Response (A : Type) : Type :=
| json (body : A)                                    (* res.json(body) *)
| status_json (code : ErrorStatus) (error : string)  (* res.status(code).json({ error }) *)
| error_page (code : ErrorStatus).                   (* an error answered before any route *)
Arguments json {A} body.
Arguments status_json {A} code error.
Arguments error_page {A} code.

(** [response.ok]: the status is in the range 200-299. *)
Definition ok {A : Type} (r : Response A) : bool :=
  match r with
  | json _ => true
  | status_json _ _ => false
  | error_page _ => false
  end.

(** An ASCII [toLowerCase], for the router and for the examples. *)
Module Ascii_lower.

Definition lower_char (c : Ascii.ascii) : Ascii.ascii :=
  let n := Ascii.nat_of_ascii c in
  if decide (65 ≤ n ≤ 90)%nat then Ascii.ascii_of_nat (n + 32) else c.

Fixpoint toLowerCase (s : string) : string :=
  match s with
  | EmptyString => EmptyString
  | String c s' => String (lower_char c) (toLowerCase s')
  end.

End Ascii_lower.

(** ** Request paths *)

(** [fetch] parses [`${API_BASE_URL}/entries/${id}`] as the URL Standard
    says, and sends the path that comes out; Express decodes the [id]
    parameter of that path with [decodeURIComponent]. *)
Module Url.

(** The code of a character. *)
Definition code (c : Ascii.ascii) : N := Ascii.N_of_ascii c.

(** Trailing C0 controls and spaces are stripped from the input. *)
Fixpoint trim_end (s : string) : string :=
  match s with
  | EmptyString => EmptyString
  | String c s' =>
      match trim_end s' with
      | EmptyString => if (code c <=? 32)%N then EmptyString else String c EmptyString
      | t => String c t
      end
  end.

(** Tabs and newlines are removed wherever they are. *)
Fixpoint remove_tab_newline (s : string) : string :=
  match s with
  | EmptyString => EmptyString
  | String c s' =>
      if ((code c =? 9) || (code c =? 10) || (code c =? 13))%N
      then remove_tab_newline s'
      else String c (remove_tab_newline s')
  end.

(** The path ends where a query ([?], 63) or a fragment ([#], 35) starts. *)
Fixpoint before_query (s : string) : string :=
  match s with
  | EmptyString => EmptyString
  | String c s' =>
      if ((code c =? 63) || (code c =? 35))%N then EmptyString
      else String c (before_query s')
  end.

(** The segments between slashes; in an http URL a backslash (92) counts as
    a slash (47). *)
Fixpoint segments (s : string) : list string :=
  match s with
  | EmptyString => [EmptyString]
  | String c s' =>
      if ((code c =? 47) || (code c =? 92))%N then EmptyString :: segments s'
      else match segments s' with
           | segment :: rest => String c segment :: rest
           | [] => [String c EmptyString]
           end
  end.

Definition single_dot (segment : string) : bool :=
  bool_decide (segment ∈ ["."; "%2e"; "%2E"]).

Definition double_dot (segment : string) : bool :=
  bool_decide (segment ∈ [".."; ".%2e"; ".%2E"; "%2e."; "%2E.";
                          "%2e%2e"; "%2e%2E"; "%2E%2e"; "%2E%2E"]).

Definition hex_digit (n : N) : Ascii.ascii :=
  Ascii.ascii_of_N (if (n <? 10)%N then 48 + n else 55 + n).

(** The path percent-encode set: the C0 controls, the codes above 126, and
    space, the double quote, [#], [<], [>], [?], [^], the backtick, [{] and
    [}]. *)
Definition path_percent_encode_set (c : Ascii.ascii) : bool :=
  let n := code c in
  ((n <=? 32) || (126 <? n) || (n =? 34) || (n =? 35) || (n =? 60) || (n =? 62)
   || (n =? 63) || (n =? 94) || (n =? 96) || (n =? 123) || (n =? 125))%N.

Fixpoint percent_encode (s : string) : string :=
  match s with
  | EmptyString => EmptyString
  | String c s' =>
      if path_percent_encode_set c
      then String (Ascii.ascii_of_N 37) (String (hex_digit (code c / 16))
                         (String (hex_digit (code c mod 16)) (percent_encode s')))
      else String c (percent_encode s')
  end.

(** The path state of the parser, a segment at a time: a double-dot segment
    drops the last segment of the path so far, a single-dot segment adds
    nothing, and either leaves an empty segment when no slash follows it;
    any other segment is added, percent-encoded. *)
Fixpoint path_state (path : list string) (todo : list string) : list string :=
  match todo with
  | [] => path
  | segment :: rest =>
      let at_end := match rest with [] => [EmptyString] | _ => [] end in
      let path :=
        if double_dot segment then (removelast path ++ at_end)%list
        else if single_dot segment then (path ++ at_end)%list
        else (path ++ [percent_encode segment])%list in
      path_state path rest
  end.

(** The path of [`${API_BASE_URL}/entries/${id}`], as a list of segments. *)
Definition entries_path (id : string) : list string :=
  path_state ["api"; "entries"]
    (segments (before_query (remove_tab_newline (trim_end id)))).

(** A plain id: not empty, not a dot segment, and made of printable ASCII
    characters other than [#], [%], [/], [?] and the backslash.  The parser
    leaves such an id as one segment of the path, and what it percent-encodes
    in it, the router decodes. *)
Definition plain_char (c : Ascii.ascii) : bool :=
  let n := code c in
  ((33 <=? n) && (n <=? 126)
   && negb ((n =? 35) || (n =? 37) || (n =? 47) || (n =? 63) || (n =? 92)))%N.

Fixpoint plain_chars (s : string) : bool :=
  match s with
  | EmptyString => true
  | String c s' => plain_char c && plain_chars s'
  end.

Definition plain (id : string) : bool :=
  negb (bool_decide (id ∈ [""; "."; ".."])) && plain_chars id.

(** *** Decoding a parameter *)


Definition hex_value (c : Ascii.ascii) : option N :=
  let n := code c in
  if ((48 <=? n) && (n <=? 57))%N then Some (n - 48)%N
  else if ((65 <=? n) && (n <=? 70))%N then Some (n - 55)%N
  else if ((97 <=? n) && (n <=? 102))%N then Some (n - 87)%N
  else None.

(** The octets that the text stands for: each [%XX] is one octet, any other
    character its own code. *)
Fixpoint octets (s : string) : option (list N) :=
  match s with
  | EmptyString => Some []
  | String c s' =>
      if (code c =? 37)%N then
        match s' with
        | String h (String l s'') =>
            match hex_value h, hex_value l, octets s'' with
            | Some a, Some b, Some rest => Some ((16 * a + b)%N :: rest)
            | _, _, _ => None
            end
        | _ => None
        end
      else match octets s' with
           | Some rest => Some (code c :: rest)
           | None => None
           end
  end.

Definition continuation (b : N) : bool := ((128 <=? b) && (b <=? 191))%N.

(** Well-formed UTF-8. *)
Fixpoint utf8 (bs : list N) : bool :=
  match bs with
  | [] => true
  | b :: r =>
      if (b <? 128)%N then utf8 r
      else if ((194 <=? b) && (b <=? 223))%N then
        match r with
        | c1 :: r1 => continuation c1 && utf8 r1
        | _ => false
        end
      else if ((224 <=? b) && (b <=? 239))%N then
        match r with
        | c1 :: c2 :: r2 =>
            continuation c1 && continuation c2
            && (if (b =? 224)%N then (160 <=? c1)%N
                else if (b =? 237)%N then (c1 <=? 159)%N else true)
            && utf8 r2
        | _ => false
        end
      else if ((240 <=? b) && (b <=? 244))%N then
        match r with
        | c1 :: c2 :: c3 :: r3 =>
            continuation c1 && continuation c2 && continuation c3
            && (if (b =? 240)%N then (144 <=? c1)%N
                else if (b =? 244)%N then (c1 <=? 143)%N else true)
            && utf8 r3
        | _ => false
        end
      else false
  end.

(** [decodeURIComponent]; [None] when it throws a [URIError]. *)
Definition decodeURIComponent (s : string) : option string :=
  match octets s with
  | Some bs =>
      if utf8 bs then Some (foldr (λ b, String (Ascii.ascii_of_N b)) EmptyString bs)
      else None
  | None => None
  end.

End Url.

(** ** server/server.js *)

Module Server.

(** The default the settings routes hand to [readJSONFile]. *)
Definition settingsDefault : Settings :=
  {| theme := Some light; autoSave := Some true;
     showMoodOnCalendar := Some true; customTexts := None |}.

(** [app.get('/api/entries')] *)
Definition get_api_entries (d : Disk) : Response (list obj) :=
  let entries := readJSONFile (entries_json d) [] in
  json entries.

(** [app.post('/api/entries')] *)
Definition post_api_entries (w : WriteOutcome (list obj)) (body : list obj)
    (d : Disk) : Disk * Response string :=
  let entries := body in
  let '(file, success) := writeJSONFile w entries in
  (with_entries file d,
   if success then json "Entries saved successfully"
   else status_json InternalServerError500 "Failed to save entries").

Section Clock.

(** [Date.prototype.toISOString], applied to a millisecond clock reading. *)
Variable toISOString : Z → string.

(** The object literal of the add route before the caller's properties are
    spread over it.  The id and the date come from two clock readings. *)
Definition newEntryDefaults (t_id t_date : Z) : obj :=
  {[ "id" := Number_toString t_id;
     "date" := toISOString t_date;
     "content" := "";
     "mood" := "neutral" ]}.

(** [app.post('/api/entries/add')] *)
Definition post_api_entries_add (t_id t_date : Z) (w : WriteOutcome (list obj))
    (entryData : obj) (d : Disk) : Disk * Response obj :=
  let entries := readJSONFile (entries_json d) [] in
  let newEntry := spread (newEntryDefaults t_id t_date) entryData in
  let entries := newEntry :: entries in                  (* entries.unshift(newEntry) *)
  let '(file, success) := writeJSONFile w entries in
  (with_entries file d,
   if success then json newEntry
   else status_json InternalServerError500 "Failed to add entry").

(** [app.get('/api/export')]; the body is the envelope that the route
    stringifies. *)
Definition get_api_export (t : Z) (d : Disk) : Response Backup :=
  let entries := readJSONFile (entries_json d) [] in
  let settings := readJSONFile (settings_json d) settingsDefault in
  json {| backup_entries := Some entries;
          backup_settings := Some settings;
          exportDate := Some (toISOString t) |}.

End Clock.

(** [app.put('/api/entries/:id')]; [findIndex] gives the first record whose
    id is the one in the path. *)
Definition put_api_entries_id (w : WriteOutcome (list obj)) (entryId : string)
    (updates : obj) (d : Disk) : Disk * Response string :=
  let entries := readJSONFile (entries_json d) [] in
  match list_find (λ entry : obj, entry !! "id" = Some entryId) entries with
  | None => (d, status_json NotFound404 "Entry not found")
  | Some (entryIndex, entry) =>
      let entries := <[entryIndex := spread entry updates]> entries in
      let '(file, success) := writeJSONFile w entries in
      (with_entries file d,
       if success then json "Entry updated successfully"
       else status_json InternalServerError500 "Failed to update entry")
  end.

(** [app.delete('/api/entries/:id')] *)
Definition delete_api_entries_id (w : WriteOutcome (list obj)) (entryId : string)
    (d : Disk) : Disk * Response string :=
  let entries := readJSONFile (entries_json d) [] in
  let filteredEntries := filter (λ entry : obj, entry !! "id" ≠ Some entryId) entries in
  let '(file, success) := writeJSONFile w filteredEntries in
  (with_entries file d,
   if success then json "Entry deleted successfully"
   else status_json InternalServerError500 "Failed to delete entry").

(** [app.get('/api/settings')] *)
Definition get_api_settings (d : Disk) : Response Settings :=
  let settings := readJSONFile (settings_json d) settingsDefault in
  json settings.

(** [app.post('/api/settings')] *)
Definition post_api_settings (w : WriteOutcome Settings) (body : Settings)
    (d : Disk) : Disk * Response string :=
  let settings := body in
  let '(file, success) := writeJSONFile w settings in
  (with_settings file d,
   if success then json "Settings saved successfully"
   else status_json InternalServerError500 "Failed to save settings").

(** [app.post('/api/import')]: each part is written when the body has it (an
    array and an object are both truthy); the results of the writes are not
    looked at. *)
Definition post_api_import (w_entries : WriteOutcome (list obj))
    (w_settings : WriteOutcome Settings) (importData : Backup)
    (d : Disk) : Disk * Response string :=
  let d :=
    match backup_entries importData with
    | Some entries => with_entries (writeJSONFile w_entries entries).1 d
    | None => d
    end in
  let d :=
    match backup_settings importData with
    | Some settings => with_settings (writeJSONFile w_settings settings).1 d
    | None => d
    end in
  (d, json "Data imported successfully").

(** *** In front of the routes *)

(** [app.use(express.json())]: a body of more than 100 kB is answered with
    status 413 and no route is run; [length] is the length of the body in
    bytes. *)
Definition limit : N := 102400%N.

Definition express_json {A : Type} (length : N) (route : Disk → Disk * Response A)
    (d : Disk) : Disk * Response A :=
  if (limit <? length)%N then (d, error_page PayloadTooLarge413) else route d.

(** The router on the path ['/api/entries/:id'], that is the expression
    [/^\/api\/entries\/(?:([^\/]+?))\/?$/i]: three segments, the third one
    not empty, and possibly a slash after it; letter case does not count in
    the first two; the third is decoded with [decodeURIComponent], and a
    parameter that does not decode is answered with status 400. *)
Inductive Match : Type :=
| NoRoute
| BadParam
| Param (id : string).

Definition entries_id (path : list string) : Match :=
  let found (a e p : string) : Match :=
    if bool_decide (Ascii_lower.toLowerCase a = "api")
       && bool_decide (Ascii_lower.toLowerCase e = "entries")
       && negb (bool_decide (p = ""))
    then match Url.decodeURIComponent p with
         | Some id => Param id
         | None => BadParam
         end
    else NoRoute in
  match path with
  | [a; e; p] => found a e p
  | [a; e; p; last] => if bool_decide (last = "") then found a e p else NoRoute
  | _ => NoRoute
  end.

(** A [PUT] request: the body parser, then the router.  No other route
    takes a [PUT], so a path that does not match is answered with 404. *)
Definition put_entries (w : WriteOutcome (list obj)) (path : list string)
    (length : N) (updates : obj) : Disk → Disk * Response string :=
  express_json length
    (λ d, match entries_id path with
          | Param entryId => put_api_entries_id w entryId updates d
          | BadParam => (d, error_page BadRequest400)
          | NoRoute => (d, error_page NotFound404)
          end).

(** A [DELETE] request; it has no body. *)
Definition delete_entries (w : WriteOutcome (list obj)) (path : list string)
    (d : Disk) : Disk * Response string :=
  match entries_id path with
  | Param entryId => delete_api_entries_id w entryId d
  | BadParam => (d, error_page BadRequest400)
  | NoRoute => (d, error_page NotFound404)
  end.

(** The text of an imported file, by what [express.json()] makes of it.
    Every text is of one of these six kinds. *)
Inductive Payload : Type :=
| TooLarge                   (* more than 100 kB of text, whatever it holds *)
| EmptyText                  (* no text at all *)
| NotJson                    (* text that [JSON.parse] does not take *)
| JsonScalar                 (* the text of null, a boolean, a number or a string *)
| JsonArray                  (* the text of an array *)
| JsonBody (body : Backup).  (* the text of an object, which parses to [body] *)

(** [app.use(express.json())] in front of the import route.  Text over the
    limit is answered with status 413.  The empty text is handed to the
    route as [{}].  Text that does not start with a brace or a bracket, as
    the parser asks in its strict mode, or that does not parse, is answered
    with status 400.  Of an array the route reads [entries], which is the
    array method of that name and is truthy, and no [settings]:
    [JSON.stringify] makes [undefined] of the method, [fs.writeFile] (of
    Node 16 or later, which the setup guide asks for) rejects that before it
    opens the file, [writeJSONFile] returns [false], and the route answers
    with success. *)
Definition import_request (w_entries : WriteOutcome (list obj))
    (w_settings : WriteOutcome Settings) (p : Payload)
    (d : Disk) : Disk * Response string :=
  match p with
  | TooLarge => (d, error_page PayloadTooLarge413)
  | EmptyText =>
      post_api_import w_entries w_settings
        {| backup_entries := None; backup_settings := None; exportDate := None |} d
  | NotJson => (d, error_page BadRequest400)
  | JsonScalar => (d, error_page BadRequest400)
  | JsonArray => (d, json "Data imported successfully")
  | JsonBody body => post_api_import w_entries w_settings body d
  end.

End Server.

(** ** src/api/dataService.ts *)

Module DataService.

(** [fetch] of a route: when the server is reachable the route runs on its
    disk and the response comes back; otherwise the promise rejects and the
    disk is not touched. *)
Definition fetch {A : Type} (net : bool) (route : Disk → Disk * Response A)
    (d : Disk) : Disk * option (Response A) :=
  if net then let '(d', r) := route d in (d', Some r) else (d, None).

(** The settings literal returned when the settings request fails. *)
Definition fallbackSettings : Settings :=
  {| theme := Some light; autoSave := Some true; showMoodOnCalendar := Some true;
     customTexts := Some
       {[ "appTitle" := "生活记录器";
          "appSubtitle" := "记录美好时刻，追踪心情变化，反思人生旅程";
          "heroTitle" := "你的生活，你的故事";
          "heroSubtitle" := "记录美好时刻，追踪心情变化，反思人生旅程";
          "startButtonText" := "开始写作" ]} |}.

(** Every method returns its value together with the lines it wrote with
    [console.error]. *)

(** [DataService.getEntries] *)
Definition getEntries (net : bool) (d : Disk) : list obj * list string :=
  match fetch net (λ d, (d, Server.get_api_entries d)) d with
  | (_, Some (json body)) => (body, [])
  | (_, _) => ([], ["Error fetching entries:"])
  end.

(** [DataService.saveEntries] *)
Definition saveEntries (net : bool) (w : WriteOutcome (list obj)) (entries : list obj)
    (d : Disk) : Disk * (bool * list string) :=
  match fetch net (Server.express_json (JSON.array_length entries)
                     (Server.post_api_entries w entries)) d with
  | (d', Some response) => (d', (ok response, []))
  | (d', None) => (d', (false, ["Error saving entries:"]))
  end.

(** [DataService.updateEntry] *)
Definition updateEntry (net : bool) (w : WriteOutcome (list obj)) (id : string)
    (updates : obj) (d : Disk) : Disk * (bool * list string) :=
  match fetch net (Server.put_entries w (Url.entries_path id)
                     (JSON.object_length updates) updates) d with
  | (d', Some response) => (d', (ok response, []))
  | (d', None) => (d', (false, ["Error updating entry:"]))
  end.

(** [DataService.deleteEntry] *)
Definition deleteEntry (net : bool) (w : WriteOutcome (list obj)) (id : string)
    (d : Disk) : Disk * (bool * list string) :=
  match fetch net (Server.delete_entries w (Url.entries_path id)) d with
  | (d', Some response) => (d', (ok response, []))
  | (d', None) => (d', (false, ["Error deleting entry:"]))
  end.

(** [DataService.getSettings] *)
Definition getSettings (net : bool) (d : Disk) : Settings * list string :=
  match fetch net (λ d, (d, Server.get_api_settings d)) d with
  | (_, Some (json body)) => (body, [])
  | (_, _) => (fallbackSettings, ["Error fetching settings:"])
  end.

(** [DataService.saveSettings] *)
Definition saveSettings (net : bool) (w : WriteOutcome Settings) (settings : Settings)
    (d : Disk) : Disk * (bool * list string) :=
  match fetch net (Server.express_json (JSON.settings_length settings)
                     (Server.post_api_settings w settings)) d with
  | (d', Some response) => (d', (ok response, []))
  | (d', None) => (d', (false, ["Error saving settings:"]))
  end.

(** [DataService.importData]; [data] is the text of the chosen file. *)
Definition importData (net : bool) (w_entries : WriteOutcome (list obj))
    (w_settings : WriteOutcome Settings) (data : Server.Payload)
    (d : Disk) : Disk * (bool * list string) :=
  match fetch net (Server.import_request w_entries w_settings data) d with
  | (d', Some response) => (d', (ok response, []))
  | (d', None) => (d', (false, ["Error importing data:"]))
  end.

Section Clock.

Variable toISOString : Z → string.

(** [DataService.addEntry]: the created entry, or [None] for [null]. *)
Definition addEntry (net : bool) (t_id t_date : Z) (w : WriteOutcome (list obj))
    (entry : obj) (d : Disk) : Disk * (option obj * list string) :=
  match fetch net (Server.express_json (JSON.object_length entry)
                     (Server.post_api_entries_add toISOString t_id t_date w entry))
          d with
  | (d', Some (json body)) => (d', (Some body, []))
  | (d', _) => (d', (None, ["Error adding entry:"]))
  end.

(** [DataService.exportData]: the envelope the response text stands for, or
    [None] for [null]. *)
Definition exportData (net : bool) (t : Z) (d : Disk) : option Backup * list string :=
  match fetch net (λ d, (d, Server.get_api_export toISOString t d)) d with
  | (_, Some (json body)) => (Some body, [])
  | (_, _) => (None, ["Error exporting data:"])
  end.

End Clock.

End DataService.

(** ** src/daily-life-recorder.tsx, [AppProvider] *)

(** The functions of the provider, each as one run from call to return.  The
    effect that posts the settings again after a render in which they
    changed runs after these functions and is not part of them. *)

Module AppProvider.

Definition defaultSettings : Settings :=
  {| theme := Some light; autoSave := Some true; showMoodOnCalendar := Some true;
     customTexts := Some
       {[ "appTitle" := "生活记录器";
          "appSubtitle" := "记录美好时刻，追踪心情变化，反思人生旅程";
          "heroTitle" := "你的生活，你的故事";
          "heroSubtitle" := "记录美好时刻，追踪心情变化，反思人生旅程";
          "startButtonText" := "开始写作" ]} |}.

(** The properties of an optional object that a spread copies: none when the
    object is undefined. *)
Definition own_properties (o : option obj) : obj :=
  match o with
  | Some m => m
  | None => ∅
  end.

(** The settings literal of [loadData]:
    [{ ...defaultSettings, ...settingsData,
       customTexts: { ...defaultSettings.customTexts, ...settingsData.customTexts } }] *)
Definition withDefaults (settingsData : Settings) : Settings :=
  {| theme := overlay (theme settingsData) (theme defaultSettings);
     autoSave := overlay (autoSave settingsData) (autoSave defaultSettings);
     showMoodOnCalendar :=
       overlay (showMoodOnCalendar settingsData) (showMoodOnCalendar defaultSettings);
     customTexts :=
       Some (spread (own_properties (customTexts defaultSettings))
                    (own_properties (customTexts settingsData))) |}.

(** The state of the provider that the operations below touch, with the
    browser console and the alerts shown so far (latest last). *)
Record State : Type := mkState {
  entries : list obj;
  settings : Settings;
  isLoading : bool;
  console : list string;
  alerts : list string
}.

Definition initialState : State :=
  {| entries := []; settings := defaultSettings; isLoading := false;
     console := []; alerts := [] |}.

Definition setEntries (es : list obj) (st : State) : State :=
  {| entries := es; settings := settings st; isLoading := isLoading st;
     console := console st; alerts := alerts st |}.

Definition setSettings (s : Settings) (st : State) : State :=
  {| entries := entries st; settings := s; isLoading := isLoading st;
     console := console st; alerts := alerts st |}.

Definition setIsLoading (b : bool) (st : State) : State :=
  {| entries := entries st; settings := settings st; isLoading := b;
     console := console st; alerts := alerts st |}.

Definition console_error (lines : list string) (st : State) : State :=
  {| entries := entries st; settings := settings st; isLoading := isLoading st;
     console := console st ++ lines; alerts := alerts st |}.

Definition alert (message : string) (st : State) : State :=
  {| entries := entries st; settings := settings st; isLoading := isLoading st;
     console := console st; alerts := alerts st ++ [message] |}.

(** [loadData].  Neither [DataService] call rejects, so the [catch] branch is
    not reached; the two requests only read. *)
Definition loadData (net_entries net_settings : bool) (d : Disk) (st : State) : State :=
  let st := setIsLoading true st in
  let '(entriesData, log_entries) := DataService.getEntries net_entries d in
  let '(settingsData, log_settings) := DataService.getSettings net_settings d in
  let st := console_error (log_entries ++ log_settings) st in
  let st := setEntries entriesData st in
  let st := setSettings (withDefaults settingsData) st in
  setIsLoading false st.

(** [updateEntry] *)
Definition updateEntry (net : bool) (w : WriteOutcome (list obj)) (id : string)
    (updates : obj) (d : Disk) (st : State) : Disk * State :=
  let st := setIsLoading true st in
  let '(d', (success, log)) := DataService.updateEntry net w id updates d in
  let st := console_error log st in
  let st :=
    if success then
      setEntries
        ((λ entry : obj,
            if decide (entry !! "id" = Some id) then spread entry updates else entry)
           <$> entries st) st
    else alert "更新记录失败，请重试" st in
  (d', setIsLoading false st).

(** [deleteEntry]; [confirmed] is the answer to the [confirm] dialog. *)
Definition deleteEntry (confirmed : bool) (net : bool) (w : WriteOutcome (list obj))
    (id : string) (d : Disk) (st : State) : Disk * State :=
  if negb confirmed then (d, st)
  else
    let st := setIsLoading true st in
    let '(d', (success, log)) := DataService.deleteEntry net w id d in
    let st := console_error log st in
    let st :=
      if success then
        setEntries (filter (λ entry : obj, entry !! "id" ≠ Some id) (entries st)) st
      else alert "删除记录失败，请重试" st in
    (d', setIsLoading false st).

(** [importData]; [file] is the text of the chosen file, if one was chosen. *)
Definition importData (net : bool) (w_entries : WriteOutcome (list obj))
    (w_settings : WriteOutcome Settings) (net_entries net_settings : bool)
    (file : option Server.Payload) (d : Disk) (st : State) : Disk * State :=
  match file with
  | None => (d, st)
  | Some result =>
      let '(d', (success, log)) :=
        DataService.importData net w_entries w_settings result d in
      let st := console_error log st in
      if success then
        let st := loadData net_entries net_settings d' st in
        (d', alert "数据导入成功！" st)
      else (d', alert "导入数据失败，请检查文件格式" st)
  end.

Section Clock.

Variable toISOString : Z → string.

(** [addEntry] *)
Definition addEntry (net : bool) (t_id t_date : Z) (w : WriteOutcome (list obj))
    (entry : obj) (d : Disk) (st : State) : Disk * State :=
  let st := setIsLoading true st in
  let '(d', (newEntry, log)) := DataService.addEntry toISOString net t_id t_date w entry d in
  let st := console_error log st in
  let st :=
    match newEntry with
    | Some newEntry => setEntries (newEntry :: entries st) st
    | None => st
    end in
  (d', setIsLoading false st).

End Clock.

End AppProvider.

(** ** An ISO-8601 clock for the examples *)

(** [toISOString] is a parameter of the model; the examples run it with the
    UTC rendering of the proleptic Gregorian calendar
    ([YYYY-MM-DDTHH:mm:ss.sssZ], expanded years outside 0000-9999). *)
Module Iso.

Definition zero_pad (width : nat) (n : Z) : string :=
  let s := Number_toString n in
  String.concat "" (replicate (width - String.length s) "0") +:+ s.

(** Year, month and day of a day count since 1970-01-01. *)
Definition civil_from_days (z : Z) : Z * Z * Z :=
  let z := (z + 719468)%Z in
  let era := (z / 146097)%Z in
  let doe := (z - era * 146097)%Z in
  let yoe := ((doe - doe / 1460 + doe / 36524 - doe / 146096) / 365)%Z in
  let y := (yoe + era * 400)%Z in
  let doy := (doe - (365 * yoe + yoe / 4 - yoe / 100))%Z in
  let mp := ((5 * doy + 2) / 153)%Z in
  let d := (doy - (153 * mp + 2) / 5 + 1)%Z in
  let m := (if mp <? 10 then mp + 3 else mp - 9)%Z in
  ((if m <=? 2 then y + 1 else y)%Z, m, d).

Definition year_string (y : Z) : string :=
  if ((0 <=? y) && (y <=? 9999))%Z then zero_pad 4 y
  else (if (y <? 0)%Z then "-" else "+") +:+ zero_pad 6 (Z.abs y).

Definition toISOString (ms : Z) : string :=
  let r := (ms mod 86400000)%Z in
  let '(y, m, d) := civil_from_days (ms / 86400000) in
  year_string y +:+ "-" +:+ zero_pad 2 m +:+ "-" +:+ zero_pad 2 d +:+ "T"
  +:+ zero_pad 2 (r / 3600000) +:+ ":" +:+ zero_pad 2 (r / 60000 mod 60) +:+ ":"
  +:+ zero_pad 2 (r / 1000 mod 60) +:+ "." +:+ zero_pad 3 (r mod 1000) +:+ "Z".

End Iso.

(** ** Sample data for the examples *)

Module Sample.

Definition first_entry : obj :=
  {[ "id" := "1705123456789"; "date" := "2024-01-13T05:24:16.789Z";
     "content" := "walked by the river"; "mood" := "happy" ]}.

Definition second_entry : obj :=
  {[ "id" := "1700000000000"; "date" := "2023-11-14T22:13:20.000Z";
     "content" := "rain all day"; "mood" := "sad" ]}.

Definition journal : Disk :=
  {| entries_json := Some [first_entry; second_entry]; settings_json := None |}.

Definition empty_disk : Disk := {| entries_json := None; settings_json := None |}.

(** [{ theme: "dark" }] *)
Definition only_dark : Settings :=
  {| theme := Some dark; autoSave := None; showMoodOnCalendar := None;
     customTexts := None |}.

(** A mirror that has loaded [journal]. *)
Definition loaded : AppProvider.State :=
  AppProvider.setEntries [first_entry; second_entry] AppProvider.initialState.

End Sample.

(** ** src/daily-life-recorder.tsx, the settings effect and the entry modal *)

Module SettingsEffect.

(** The body of the effect on [settings],
    [if (settings !== defaultSettings) DataService.saveSettings(settings)],
    for a render in which [settings] was replaced by a new object; the
    promise's value is dropped. *)
Definition run (net : bool) (w : WriteOutcome Settings) (d : Disk)
    (st : AppProvider.State) : Disk * AppProvider.State :=
  let '(d', (_, log)) := DataService.saveSettings net w (AppProvider.settings st) d in
  (d', AppProvider.console_error log st).

End SettingsEffect.

Module EntryModal.

(** The two pieces of [App] state that [onClose] resets. *)
Record Modal : Type := mkModal {
  showModal : option string;
  editingEntry : option obj
}.

(** [onClose]: [setShowModal(null); setEditingEntry(null)] *)
Definition onClose (m : Modal) : Modal :=
  {| showModal := None; editingEntry := None |}.

Section Clock.

Variable toISOString : Z → string.

(** [handleSubmit].  The entry being edited is given by its [id], the only
    property of it that is read; [None] is the modal for a new entry. *)
Definition handleSubmit (net : bool) (t_id t_date : Z) (w : WriteOutcome (list obj))
    (entry_id : option string) (content mood : string)
    (d : Disk) (st : AppProvider.State) (m : Modal) : Disk * AppProvider.State * Modal :=
  let '(d', st') :=
    match entry_id with
    | Some id =>
        AppProvider.updateEntry net w id {[ "content" := content; "mood" := mood ]} d st
    | None =>
        AppProvider.addEntry toISOString net t_id t_date w
          {[ "content" := content; "mood" := mood ]} d st
    end in
  (d', st', onClose m).

End Clock.

End EntryModal.

(** ** src/daily-life-recorder.tsx, the pages *)

(** The updater of [toggleTheme] in [Header]:
    [prev => ({ ...prev, theme: prev.theme === 'light' ? 'dark' : 'light' })] *)
Module Header.

Definition toggleTheme (prev : Settings) : Settings :=
  {| theme := Some match theme prev with
                   | Some light => dark
                   | _ => light
                   end;
     autoSave := autoSave prev;
     showMoodOnCalendar := showMoodOnCalendar prev;
     customTexts := customTexts prev |}.

End Header.

Module SettingsPage.

(** The updater behind each of the four text inputs, for the input's slot
    ([appTitle], [heroTitle], [heroSubtitle], [startButtonText]):
    [prev => ({ ...prev, customTexts: { ...defaultSettings.customTexts,
                                         ...prev.customTexts, [slot]: value } })] *)
Definition setCustomText (slot value : string) (prev : Settings) : Settings :=
  {| theme := theme prev;
     autoSave := autoSave prev;
     showMoodOnCalendar := showMoodOnCalendar prev;
     customTexts :=
       Some (<[slot := value]>
               (spread (AppProvider.own_properties (customTexts AppProvider.defaultSettings))
                       (AppProvider.own_properties (customTexts prev)))) |}.

(** The updater of the reset button: [customTexts] becomes the literal with
    the five default texts. *)
Definition resetCustomTexts (prev : Settings) : Settings :=
  {| theme := theme prev;
     autoSave := autoSave prev;
     showMoodOnCalendar := showMoodOnCalendar prev;
     customTexts := Some
       {[ "appTitle" := "生活记录器";
          "appSubtitle" := "记录美好时刻，追踪心情变化，反思人生旅程";
          "heroTitle" := "你的生活，你的故事";
          "heroSubtitle" := "记录美好时刻，追踪心情变化，反思人生旅程";
          "startButtonText" := "开始写作" ]} |}.

End SettingsPage.

(** [moodOptions] *)
Record MoodOption : Type := mkMoodOption {
  value : string;
  label : string;
  color : string;
  emoji : string
}.

Definition moodOptions : list MoodOption :=
  [ {| value := "amazing"; label := "Amazing"; color := "#10B981"; emoji := "🤩" |};
    {| value := "happy"; label := "Happy"; color := "#F59E0B"; emoji := "😊" |};
    {| value := "neutral"; label := "Neutral"; color := "#6B7280"; emoji := "😐" |};
    {| value := "sad"; label := "Sad"; color := "#3B82F6"; emoji := "😢" |};
    {| value := "awful"; label := "Awful"; color := "#EF4444"; emoji := "😰" |} ].

(** The property key that [acc[x]] uses for a possibly undefined string. *)
Definition property_key (x : option string) : string :=
  match x with
  | Some s => s
  | None => "undefined"
  end.

Module MoodTrackerPage.

(** [moodCounts]: the reduce that counts the entries per mood, as the map of
    the own properties it adds to [{}].  (A mood that names a member of
    [Object.prototype] is outside this model; the five moods of
    [moodOptions] are read the same whether or not such entries exist.) *)
Definition moodCounts (entries : list obj) : gmap string nat :=
  foldl (λ (acc : gmap string nat) (entry : obj),
           let mood := property_key (entry !! "mood") in
           <[mood := default 0 (acc !! mood) + 1]> acc)
        ∅ entries.

(** [moodStats], without the floating-point [percentage]: each option with
    its [count], [moodCounts[mood.value] || 0]. *)
Definition moodStats (entries : list obj) : list (MoodOption * nat) :=
  (λ mood, (mood, default 0 (moodCounts entries !! value mood))) <$> moodOptions.

End MoodTrackerPage.

Module JournalPage.

(** [s.includes(t)]: some suffix of [s] starts with [t]. *)
Fixpoint includes (s t : string) : bool :=
  if String.prefix t s then true
  else match s with
       | EmptyString => false
       | String _ s' => includes s' t
       end.

Section Lower.

(** [String.prototype.toLowerCase] *)
Variable toLowerCase : string → string.

(** The callback of the filter; [None] when it throws, which it does for an
    entry without [content]. *)
Definition matches (searchTerm selectedMood : string) (entry : obj) : option bool :=
  match entry !! "content" with
  | None => None
  | Some content =>
      let matchesSearch := includes (toLowerCase content) (toLowerCase searchTerm) in
      let matchesMood :=
        bool_decide (selectedMood = "all")
        || bool_decide (entry !! "mood" = Some selectedMood) in
      Some (matchesSearch && matchesMood)
  end.

(** [filteredEntries]; [None] when the callback throws for some entry. *)
Fixpoint filteredEntries (searchTerm selectedMood : string) (entries : list obj)
    : option (list obj) :=
  match entries with
  | [] => Some []
  | entry :: rest =>
      match matches searchTerm selectedMood entry with
      | None => None
      | Some keep =>
          match filteredEntries searchTerm selectedMood rest with
          | None => None
          | Some shown => Some (if keep then entry :: shown else shown)
          end
      end
  end.

End Lower.

End JournalPage.

(** ** Local calendar dates *)

(** A [Date] is kept as the number of its local calendar day, counted from
    1 January 1970; the time of day plays no part in the calendar page.  The
    local time zone is taken to have every calendar day, and the years to be
    within the range of [Date].  The getters read the calendar date off the
    day number with [Iso.civil_from_days]. *)
Module JSDate.

(** The day number of a year, month (1 to 12) and day of the proleptic
    Gregorian calendar. *)
Definition days_from_civil (y m d : Z) : Z :=
  let y := (if m <=? 2 then y - 1 else y)%Z in
  let era := (y / 400)%Z in
  let yoe := (y - era * 400)%Z in
  let doy := ((153 * (if 2 <? m then m - 3 else m + 9) + 2) / 5 + d - 1)%Z in
  let doe := (yoe * 365 + yoe / 4 - yoe / 100 + doy)%Z in
  (era * 146097 + doe - 719468)%Z.

(** [MakeDay(year, month, date)] of the language specification: the months
    carry over into the years, and the day of the month counts on from the
    first of the month. *)
Definition MakeDay (year month date : Z) : Z :=
  let ym := (year + month / 12)%Z in
  let mn := (month mod 12)%Z in
  (days_from_civil ym (mn + 1) 1 + date - 1)%Z.

(** [new Date(year, monthIndex, day)]: a year from 0 to 99 counts from 1900. *)
Definition Date (year monthIndex day : Z) : Z :=
  let yr := (if (0 <=? year) && (year <=? 99) then 1900 + year else year)%Z in
  MakeDay yr monthIndex day.

Definition getFullYear (t : Z) : Z := (Iso.civil_from_days t).1.1.
Definition getMonth (t : Z) : Z := ((Iso.civil_from_days t).1.2 - 1)%Z.
Definition getDate (t : Z) : Z := (Iso.civil_from_days t).2.

(** [getDay]: 0 is Sunday; 1 January 1970 was a Thursday. *)
Definition getDay (t : Z) : Z := ((t + 4) mod 7)%Z.

End JSDate.

Module CalendarPage.

(** [getDaysInMonth]: an empty cell for each weekday before the first of the
    month, then the days of the month. *)
Definition getDaysInMonth (date : Z) : list (option Z) :=
  let firstDay := JSDate.Date (JSDate.getFullYear date) (JSDate.getMonth date) 1 in
  let lastDay := JSDate.Date (JSDate.getFullYear date) (JSDate.getMonth date + 1) 0 in
  let daysInMonth := JSDate.getDate lastDay in
  let startingDayOfWeek := JSDate.getDay firstDay in
  (replicate (Z.to_nat startingDayOfWeek) None
   ++ ((λ day, Some (JSDate.Date (JSDate.getFullYear date) (JSDate.getMonth date) day))
         <$> seqZ 1 daysInMonth))%list.

(** The buttons for the previous and the next month:
    [new Date(currentDate.getFullYear(), currentDate.getMonth() - 1, 1)] and
    the same with [+ 1]. *)
Definition previousMonth (currentDate : Z) : Z :=
  JSDate.Date (JSDate.getFullYear currentDate) (JSDate.getMonth currentDate - 1) 1.

Definition nextMonth (currentDate : Z) : Z :=
  JSDate.Date (JSDate.getFullYear currentDate) (JSDate.getMonth currentDate + 1) 1.

Section DateKey.

(** [new Date(entry.date).toDateString()] for a possibly undefined [date]:
    the local calendar day of the timestamp, or ["Invalid Date"]. *)
Variable dateKey : option string → string.

(** [entriesByDate]: the reduce that appends each entry to the array kept
    under its day. *)
Definition entriesByDate (entries : list obj) : gmap string (list obj) :=
  foldl (λ (acc : gmap string (list obj)) (entry : obj),
           let date := dateKey (entry !! "date") in
           <[date := (default [] (acc !! date) ++ [entry])%list]> acc)
        ∅ entries.

(** [dayEntries] of a calendar cell: [entriesByDate[dateString] || []] *)
Definition dayEntries (entries : list obj) (dateString : string) : list obj :=
  default [] (entriesByDate entries !! dateString).

(** What a cell draws: a dot for each of [dayEntries.slice(0, 2)], and
    ["+N"] with [N = dayEntries.length - 2] when there are more than two. *)
Definition dots (entries : list obj) (dateString : string) : list obj :=
  take 2 (dayEntries entries dateString).

Definition overflow (entries : list obj) (dateString : string) : option nat :=
  let n := length (dayEntries entries dateString) in
  if decide (2 < n)%nat then Some (n - 2)%nat else None.

End DateKey.

End CalendarPage.

(** ** The Gregorian calendar, for stating what the calendar page shows *)

Module Gregorian.

Definition leap (y : Z) : bool :=
  ((y mod 4 =? 0) && (negb (y mod 100 =? 0) || (y mod 400 =? 0)))%Z.

(** The length of month [m] (1 to 12) of year [y]. *)
Definition days_in_month (y m : Z) : Z :=
  if (m =? 2)%Z then (if leap y then 29 else 28)%Z
  else if ((m =? 4) || (m =? 6) || (m =? 9) || (m =? 11))%Z then 30%Z
  else 31%Z.

End Gregorian.

(** * Properties *)

(** Case analysis on membership in an explicit list: one goal per element. *)
Ltac members H :=
  repeat (apply elem_of_cons in H as [-> | H]); [.. | by apply elem_of_nil in H].

(** Splits a conjunction into its conjuncts, and nothing else. *)
Ltac conjuncts := repeat match goal with |- _ ∧ _ => split end.

(** ** Spread and the generated id *)

Lemma spread_lookup_over (a b : obj) (k v : string) :
  b !! k = Some v → spread a b !! k = Some v.
Proof. intros Hb. unfold spread. by apply lookup_union_Some_l. Qed.

Lemma spread_lookup_under (a b : obj) (k : string) :
  b !! k = None → spread a b !! k = a !! k.
Proof. intros Hb. unfold spread. by apply lookup_union_r. Qed.

Lemma Number_toString_nonempty (n : Z) : Number_toString n ≠ "".
Proof.
  unfold Number_toString, NilZero.string_of_int.
  assert (Hu : ∀ u, NilZero.string_of_uint u ≠ "") by (by intros []).
  destruct (Z.to_int n) as [u|u]; [apply Hu | done].
Qed.

(** Two clock readings give the same id only when they are equal. *)
Lemma Number_toString_inj (m n : Z) : Number_toString m = Number_toString n → m = n.
Proof.
  unfold Number_toString. intros H.
  apply DecimalZ.to_int_inj.
  assert (Hnn : ∀ z, Z.to_int z ≠ Decimal.Pos Decimal.Nil ∧ Z.to_int z ≠ Decimal.Neg Decimal.Nil).
  { intros [|p|p]; simpl; split; try discriminate;
      intros [= Hp]; by apply DecimalPos.Unsigned.to_uint_nonnil in Hp. }
  destruct (Hnn m) as [Hm1 Hm2], (Hnn n) as [Hn1 Hn2].
  pose proof (NilZero.isi _ Hm1 Hm2) as Pm.
  pose proof (NilZero.isi _ Hn1 Hn2) as Pn.
  rewrite H in Pm. congruence.
Qed.

(** ** Ids that the request path carries unchanged *)

Lemma plain_char_code (c : Ascii.ascii) :
  Url.plain_char c = true →
  (33 ≤ Url.code c ≤ 126 ∧ Url.code c ≠ 35 ∧ Url.code c ≠ 37 ∧ Url.code c ≠ 47
   ∧ Url.code c ≠ 63 ∧ Url.code c ≠ 92)%N.
Proof.
  unfold Url.plain_char. cbv zeta.
  rewrite !andb_true_iff, negb_true_iff, !orb_false_iff, !N.leb_le, !N.eqb_neq.
  tauto.
Qed.

Lemma trim_end_plain (s : string) : Url.plain_chars s = true → Url.trim_end s = s.
Proof.
  induction s as [|c s IH]; [done|]. simpl.
  intros [Hc Hs]%andb_true_iff. rewrite (IH Hs).
  apply plain_char_code in Hc.
  destruct s; [|done].
  by rewrite (proj2 (N.leb_gt _ _)) by lia.
Qed.

Lemma remove_tab_newline_plain (s : string) :
  Url.plain_chars s = true → Url.remove_tab_newline s = s.
Proof.
  induction s as [|c s IH]; [done|]. simpl.
  intros [Hc Hs]%andb_true_iff. rewrite (IH Hs).
  apply plain_char_code in Hc.
  by rewrite !(proj2 (N.eqb_neq _ _)) by lia.
Qed.

Lemma before_query_plain (s : string) :
  Url.plain_chars s = true → Url.before_query s = s.
Proof.
  induction s as [|c s IH]; [done|]. simpl.
  intros [Hc Hs]%andb_true_iff. rewrite (IH Hs).
  apply plain_char_code in Hc.
  by rewrite !(proj2 (N.eqb_neq _ _)) by lia.
Qed.

Lemma segments_plain (s : string) : Url.plain_chars s = true → Url.segments s = [s].
Proof.
  induction s as [|c s IH]; [done|]. simpl.
  intros [Hc Hs]%andb_true_iff. rewrite (IH Hs).
  apply plain_char_code in Hc.
  by rewrite !(proj2 (N.eqb_neq _ _)) by lia.
Qed.

Lemma hex_value_hex_digit (n : N) :
  (n < 16)%N → Url.hex_value (Url.hex_digit n) = Some n.
Proof.
  intros Hn.
  assert (Hcases : n ∈ (N.of_nat <$> seq 0 16)).
  { apply list_elem_of_fmap. exists (N.to_nat n). split; [lia|].
    apply elem_of_seq. lia. }
  simpl in Hcases.
  repeat (apply elem_of_cons in Hcases as [-> | Hcases]; [reflexivity|]).
  by apply elem_of_nil in Hcases.
Qed.

Lemma octets_percent_encode (s : string) :
  Url.plain_chars s = true →
  Url.octets (Url.percent_encode s)
  = Some (foldr (λ c, cons (Url.code c)) [] (String.list_ascii_of_string s)).
Proof.
  induction s as [|c s IH]; [done|].
  intros [Hc Hs]%andb_true_iff. apply plain_char_code in Hc.
  cbn [Url.percent_encode]. destruct (Url.path_percent_encode_set c).
  - cbn [Url.octets].
    change (Url.code (Ascii.ascii_of_N 37) =? 37)%N with true. cbv iota.
    pose proof (Ascii.N_ascii_bounded c) as Hbound. fold (Url.code c) in Hbound.
    rewrite !hex_value_hex_digit, (IH Hs)
      by (try apply N.Div0.div_lt_upper_bound; try apply N.mod_lt; lia).
    simpl. do 2 f_equal.
    rewrite (N.div_mod' (Url.code c) 16) at 3. lia.
  - cbn [Url.octets].
    rewrite (proj2 (N.eqb_neq _ _)), (IH Hs) by lia. done.
Qed.

Lemma utf8_ascii (bs : list N) : Forall (λ b, (b < 128)%N) bs → Url.utf8 bs = true.
Proof.
  induction 1 as [|b bs Hb _ IH]; [done|]. simpl.
  by rewrite (proj2 (N.ltb_lt _ _)).
Qed.

Lemma decodeURIComponent_percent_encode (s : string) :
  Url.plain_chars s = true →
  Url.decodeURIComponent (Url.percent_encode s) = Some s.
Proof.
  intros Hs. unfold Url.decodeURIComponent.
  rewrite (octets_percent_encode _ Hs).
  assert (Hall : ∀ s, Url.plain_chars s = true →
            Forall (λ b, (b < 128)%N)
              (foldr (λ c, cons (Url.code c)) [] (String.list_ascii_of_string s))
            ∧ foldr (λ b, String (Ascii.ascii_of_N b)) EmptyString
                (foldr (λ c, cons (Url.code c)) [] (String.list_ascii_of_string s)) = s).
  { clear. induction s as [|c s IH]; [done|]. simpl.
    intros [Hc Hs]%andb_true_iff. apply plain_char_code in Hc.
    destruct (IH Hs) as [IH1 IH2]. split.
    - constructor; [lia | done].
    - unfold Url.code at 1. by rewrite Ascii.ascii_N_embedding, IH2. }
  destruct (Hall s Hs) as [H1 H2].
  by rewrite (utf8_ascii _ H1), H2.
Qed.

Lemma percent_encode_nonempty (s : string) : s ≠ "" → Url.percent_encode s ≠ "".
Proof.
  destruct s as [|c s]; [done|]. intros _. simpl.
  by destruct (Url.path_percent_encode_set c).
Qed.

(** A plain id is the [id] parameter of the route it is sent to. *)
Lemma plain_id_param (id : string) :
  Url.plain id = true → Server.entries_id (Url.entries_path id) = Server.Param id.
Proof.
  unfold Url.plain. intros [Hne Hs]%andb_true_iff.
  apply negb_true_iff, bool_decide_eq_false in Hne.
  unfold Url.entries_path.
  rewrite (trim_end_plain _ Hs), (remove_tab_newline_plain _ Hs),
    (before_query_plain _ Hs), (segments_plain _ Hs).
  assert (Hdd : Url.double_dot id = false).
  { apply bool_decide_eq_false. intros Hin.
    repeat (apply elem_of_cons in Hin as [-> | Hin];
            [first [discriminate Hs | exfalso; apply Hne; set_solver]|]).
    by apply elem_of_nil in Hin. }
  assert (Hsd : Url.single_dot id = false).
  { apply bool_decide_eq_false. intros Hin.
    repeat (apply elem_of_cons in Hin as [-> | Hin];
            [first [discriminate Hs | exfalso; apply Hne; set_solver]|]).
    by apply elem_of_nil in Hin. }
  cbn [Url.path_state]. rewrite Hdd, Hsd. cbn [app].
  unfold Server.entries_id.
  change (bool_decide (Ascii_lower.toLowerCase "api" = "api")) with true.
  change (bool_decide (Ascii_lower.toLowerCase "entries" = "entries")) with true.
  rewrite (bool_decide_eq_false_2 (Url.percent_encode id = ""))
    by (apply percent_encode_nonempty; intros ->; apply Hne; set_solver).
  simpl. by rewrite (decodeURIComponent_percent_encode _ Hs).
Qed.

(** What the route receives for some ids that are not plain. *)
Lemma entries_id_examples :
  Server.entries_id (Url.entries_path "1705123456789?x") = Server.Param "1705123456789"
  ∧ Server.entries_id (Url.entries_path "1705123456789#x") = Server.Param "1705123456789"
  ∧ Server.entries_id (Url.entries_path "%41") = Server.Param "A"
  ∧ Server.entries_id (Url.entries_path "a b ") = Server.Param "a b"
  ∧ Server.entries_id (Url.entries_path "x/") = Server.Param "x"
  ∧ Server.entries_id (Url.entries_path "x/../y") = Server.Param "y"
  ∧ Server.entries_id (Url.entries_path "") = Server.NoRoute
  ∧ Server.entries_id (Url.entries_path "a/b") = Server.NoRoute
  ∧ Server.entries_id (Url.entries_path "..") = Server.NoRoute
  ∧ Server.entries_id (Url.entries_path "100%") = Server.BadParam.
Proof. conjuncts; reflexivity. Qed.

(** The ids that the add route makes, decimal numerals, are plain. *)
Lemma Number_toString_plain (n : Z) : Url.plain (Number_toString n) = true.
Proof.
  set (numeral := fix numeral (s : string) : bool :=
         match s with
         | EmptyString => true
         | String c s' =>
             (((48 <=? Url.code c) && (Url.code c <=? 57)) || (Url.code c =? 45))%N
             && numeral s'
         end).
  assert (Hplain : ∀ s, s ≠ "" → numeral s = true → Url.plain s = true).
  { intros s Hne Hs. unfold Url.plain. apply andb_true_iff. split.
    - apply negb_true_iff, bool_decide_eq_false. intros Hin.
      repeat (apply elem_of_cons in Hin as [-> | Hin]; [done|]).
      by apply elem_of_nil in Hin.
    - clear Hne. induction s as [|c s IH]; [done|]. simpl in *.
      apply andb_true_iff in Hs as [Hc Hs]. rewrite (IH Hs), andb_true_r.
      unfold Url.plain_char. cbv zeta.
      rewrite orb_true_iff, andb_true_iff, !N.leb_le, N.eqb_eq in Hc.
      rewrite !andb_true_iff, negb_true_iff, !orb_false_iff, !N.leb_le, !N.eqb_neq.
      lia. }
  apply Hplain; [apply Number_toString_nonempty|].
  unfold Number_toString, NilZero.string_of_int.
  assert (Hu : ∀ u, numeral (NilEmpty.string_of_uint u) = true).
  { induction u; simpl; by rewrite ?IHu. }
  assert (Hz : ∀ u, numeral (NilZero.string_of_uint u) = true).
  { intros u. destruct u; try apply Hu. done. }
  destruct (Z.to_int n) as [u|u]; [apply Hz|].
  simpl. apply Hz.
Qed.

(** ** Reading back what a route wrote *)

Lemma fetch_ok_inv {A : Type} (net : bool) (route : Disk → Disk * Response A)
    (d d' : Disk) (r : Response A) :
  DataService.fetch net route d = (d', Some r) → net = true ∧ route d = (d', r).
Proof.
  unfold DataService.fetch. destruct net; [|done].
  destruct (route d) as [d1 r1]. by intros [= -> ->].
Qed.

(** A response that is [ok] has passed the body parser. *)
Lemma express_json_ok_inv {A : Type} (length : N) (route : Disk → Disk * Response A)
    (d d' : Disk) (r : Response A) :
  Server.express_json length route d = (d', r) → ok r = true →
  (length ≤ Server.limit)%N ∧ route d = (d', r).
Proof.
  unfold Server.express_json.
  destruct (Server.limit <? length)%N eqn:Hl; [by intros [= <- <-]|].
  apply N.ltb_ge in Hl. done.
Qed.

Lemma put_ok_inv (w : WriteOutcome (list obj)) (id : string) (updates : obj)
    (d d' : Disk) (r : Response string) :
  Server.put_api_entries_id w id updates d = (d', r) → ok r = true →
  ∃ i e, list_find (λ entry : obj, entry !! "id" = Some id)
           (readJSONFile (entries_json d) []) = Some (i, e)
         ∧ w = Committed
         ∧ d' = with_entries
                  (Some (<[i := spread e updates]> (readJSONFile (entries_json d) []))) d.
Proof.
  unfold Server.put_api_entries_id.
  destruct (list_find _ _) as [[i e]|]; [|by intros [= <- <-]].
  destruct w as [|residue]; simpl; intros [= <- <-]; [|done].
  intros _. by exists i, e.
Qed.

Lemma delete_ok_inv (w : WriteOutcome (list obj)) (id : string) (d d' : Disk)
    (r : Response string) :
  Server.delete_api_entries_id w id d = (d', r) → ok r = true →
  w = Committed
  ∧ d' = with_entries
           (Some (filter (λ entry : obj, entry !! "id" ≠ Some id)
                    (readJSONFile (entries_json d) []))) d.
Proof.
  unfold Server.delete_api_entries_id.
  destruct w as [|residue]; simpl; intros [= <- <-]; [done|done].
Qed.

Lemma filter_absent_id (id : string) (es : list obj) :
  (∀ e : obj, e ∈ es → e !! "id" ≠ Some id) →
  filter (λ entry : obj, entry !! "id" ≠ Some id) es = es.
Proof.
  intros Habs. induction es as [|e es IH]; [done|].
  rewrite filter_cons_True; [|apply Habs; left].
  f_equal. apply IH. intros e' He'. apply Habs. by right.
Qed.

(** The first record with the id is a record with the id. *)
Lemma find_by_id_Some (id : string) (es : list obj) (i : nat) (e : obj) :
  list_find (λ entry : obj, entry !! "id" = Some id) es = Some (i, e) →
  es !! i = Some e ∧ e !! "id" = Some id
  ∧ ∀ j e', es !! j = Some e' → j < i → e' !! "id" ≠ Some id.
Proof. intros H. by apply list_find_Some in H. Qed.

Lemma put_unknown_id (w : WriteOutcome (list obj)) (id : string) (updates : obj)
    (d : Disk) :
  (∀ e : obj, e ∈ readJSONFile (entries_json d) [] → e !! "id" ≠ Some id) →
  Server.put_api_entries_id w id updates d
  = (d, status_json NotFound404 "Entry not found").
Proof.
  intros Habs. unfold Server.put_api_entries_id.
  assert (list_find (λ entry : obj, entry !! "id" = Some id)
            (readJSONFile (entries_json d) []) = None) as ->; [|done].
  apply list_find_None, Forall_forall. intros e He. by apply Habs.
Qed.

(** ** What a successful call did *)

(** When [DataService.updateEntry] returns [true], the path has reached the
    update route with some [entryId], which is the id itself when the id is
    plain, and the route has rewritten the first record carrying it. *)
Lemma DataService_updateEntry_ok (net : bool) (w : WriteOutcome (list obj))
    (id : string) (updates : obj) (d d' : Disk) (log : list string) :
  DataService.updateEntry net w id updates d = (d', (true, log)) →
  ∃ entryId i e,
    Server.entries_id (Url.entries_path id) = Server.Param entryId
    ∧ (Url.plain id = true → entryId = id)
    ∧ list_find (λ entry : obj, entry !! "id" = Some entryId)
        (readJSONFile (entries_json d) []) = Some (i, e)
    ∧ d' = with_entries
             (Some (<[i := spread e updates]> (readJSONFile (entries_json d) []))) d.
Proof.
  unfold DataService.updateEntry.
  destruct (DataService.fetch net _ d) as [d1 [r|]] eqn:F; [|done].
  intros [= -> Hok _].
  apply fetch_ok_inv in F as [_ F].
  apply express_json_ok_inv in F as [_ F]; [|done].
  destruct (Server.entries_id (Url.entries_path id)) as [| |entryId] eqn:Hpath;
    [by injection F as <- <- | by injection F as <- <- |].
  apply put_ok_inv in F as (i & e & Hfind & _ & ->); [|done].
  exists entryId, i, e. conjuncts; try done.
  intros Hplain. rewrite (plain_id_param _ Hplain) in Hpath. by injection Hpath.
Qed.

Lemma DataService_deleteEntry_ok (net : bool) (w : WriteOutcome (list obj))
    (id : string) (d d' : Disk) (log : list string) :
  DataService.deleteEntry net w id d = (d', (true, log)) →
  ∃ entryId,
    Server.entries_id (Url.entries_path id) = Server.Param entryId
    ∧ (Url.plain id = true → entryId = id)
    ∧ d' = with_entries
             (Some (filter (λ entry : obj, entry !! "id" ≠ Some entryId)
                      (readJSONFile (entries_json d) []))) d.
Proof.
  unfold DataService.deleteEntry.
  destruct (DataService.fetch net _ d) as [d1 [r|]] eqn:F; [|done].
  intros [= -> Hok _].
  apply fetch_ok_inv in F as [_ F].
  unfold Server.delete_entries in F.
  destruct (Server.entries_id (Url.entries_path id)) as [| |entryId] eqn:Hpath;
    [by injection F as <- <- | by injection F as <- <- |].
  apply delete_ok_inv in F as [_ ->]; [|done].
  exists entryId. conjuncts; try done.
  intros Hplain. rewrite (plain_id_param _ Hplain) in Hpath. by injection Hpath.
Qed.

Lemma DataService_addEntry_ok (toISOString : Z → string) (net : bool) (t_id t_date : Z)
    (w : WriteOutcome (list obj)) (entry : obj) (d d' : Disk) (e : obj)
    (log : list string) :
  DataService.addEntry toISOString net t_id t_date w entry d = (d', (Some e, log)) →
  e = spread (Server.newEntryDefaults toISOString t_id t_date) entry
  ∧ d' = with_entries (Some (e :: readJSONFile (entries_json d) [])) d.
Proof.
  unfold DataService.addEntry.
  destruct (DataService.fetch net _ d) as [d1 [[body|code err|code]|]] eqn:F;
    [|done|done|done].
  intros [= -> -> _].
  apply fetch_ok_inv in F as [_ F].
  apply express_json_ok_inv in F as [_ F]; [|done].
  unfold Server.post_api_entries_add in F.
  destruct w as [|residue]; simpl in F; [|done].
  by injection F as <- <-.
Qed.

Lemma post_settings_ok_inv (w : WriteOutcome Settings) (s : Settings) (d d' : Disk)
    (r : Response string) :
  Server.post_api_settings w s d = (d', r) → ok r = true →
  d' = with_settings (Some s) d.
Proof.
  unfold Server.post_api_settings.
  destruct w as [|residue]; simpl; intros [= <- <-]; [done|done].
Qed.

Lemma DataService_saveSettings_ok (net : bool) (w : WriteOutcome Settings)
    (s : Settings) (d d' : Disk) (log : list string) :
  DataService.saveSettings net w s d = (d', (true, log)) →
  d' = with_settings (Some s) d.
Proof.
  unfold DataService.saveSettings.
  destruct (DataService.fetch net _ d) as [d1 [r|]] eqn:F; [|done].
  intros [= -> Hok _].
  apply fetch_ok_inv in F as [_ F].
  apply express_json_ok_inv in F as [_ F]; [|done].
  by apply post_settings_ok_inv in F.
Qed.

(** An update that does not reach a record carrying its [entryId] returns
    [false] and leaves the data directory alone. *)
Lemma DataService_updateEntry_unknown (net : bool) (w : WriteOutcome (list obj))
    (id entryId : string) (updates : obj) (d : Disk) :
  Server.entries_id (Url.entries_path id) = Server.Param entryId →
  (∀ e : obj, e ∈ readJSONFile (entries_json d) [] → e !! "id" ≠ Some entryId) →
  ∃ log, DataService.updateEntry net w id updates d = (d, (false, log)).
Proof.
  intros Hpath Habs.
  unfold DataService.updateEntry, DataService.fetch, Server.put_entries,
    Server.express_json.
  destruct net; [|by eexists].
  destruct (Server.limit <? _)%N; [by eexists|].
  rewrite Hpath, (put_unknown_id _ _ _ _ Habs). by eexists.
Qed.

(** ** Update of an unknown id *)




(** ** Deleting twice *)




(** ** Bulk save *)

(** C10: the bulk save route writes the array it is given as it is; when
    [DataService.saveEntries] returns [true], the entries route lists exactly
    that array, and the settings file is as before. *)
Theorem saveEntries_replaces_collection (net : bool) (w : WriteOutcome (list obj))
    (es : list obj) (d d' : Disk) (log : list string) :
  DataService.saveEntries net w es d = (d', (true, log)) →
  Server.get_api_entries d' = json es ∧ settings_json d' = settings_json d.
Proof.
  unfold DataService.saveEntries.
  destruct (DataService.fetch net _ d) as [d1 [r|]] eqn:F; [|done].
  intros [= -> Hok _].
  apply fetch_ok_inv in F as [_ F].
  apply express_json_ok_inv in F as [_ F]; [|done].
  unfold Server.post_api_entries in F.
  destruct w as [|residue]; simpl in F; injection F as <- <-; [done|done].
Qed.

Lemma saveEntries_replaces_collection_witness :
  Server.get_api_entries
    (DataService.saveEntries true Committed [Sample.second_entry] Sample.journal).1
  = json [Sample.second_entry].
Proof.
  apply (saveEntries_replaces_collection true Committed [Sample.second_entry]
           Sample.journal _ []).
  reflexivity.
Defined.

(** ** Export, then import *)

(** C7, as stated, fails: the import route does not look at what its writes
    return.  When the write of the entries file fails and leaves a file
    that cannot be read, the import of the exported envelope still answers
    with success, and the entries route lists nothing where it listed two
    entries. *)
Lemma import_of_export_with_failed_write :
  let envelope :=
    {| backup_entries := Some [Sample.first_entry; Sample.second_entry];
       backup_settings := Some Server.settingsDefault;
       exportDate := Some "2024-01-13T05:24:16.789Z" |} in
  let after :=
    DataService.importData true (Rejected None) Committed (Server.JsonBody envelope)
      Sample.journal in
  DataService.exportData Iso.toISOString true 1705123456789 Sample.journal
    = (Some envelope, [])
  ∧ after.2 = (true, [])
  ∧ Server.get_api_entries Sample.journal
    = json [Sample.first_entry; Sample.second_entry]
  ∧ Server.get_api_entries after.1 = json [].
Proof. cbv zeta. conjuncts; reflexivity. Qed.

(** C7, amended: when both writes of the import commit, importing the
    envelope that the export produced leaves what the entries route and the
    settings route return unchanged, whatever the export timestamp; the text
    of the envelope is either within the limit of the body parser, and
    parses to the envelope, or over it, and then the import is refused and
    nothing is written. *)
Theorem import_export_roundtrip (toISOString : Z → string) (net net' : bool) (t : Z)
    (d d' : Disk) (envelope : Backup) (log : list string)
    (text : Server.Payload) (result : bool * list string) :
  DataService.exportData toISOString net t d = (Some envelope, log) →
  text = Server.JsonBody envelope ∨ text = Server.TooLarge →
  DataService.importData net' Committed Committed text d = (d', result) →
  Server.get_api_entries d' = Server.get_api_entries d
  ∧ Server.get_api_settings d' = Server.get_api_settings d.
Proof.
  unfold DataService.exportData, DataService.importData, DataService.fetch.
  destruct net; [|done]. simpl. intros [= <- _].
  intros [-> | ->]; destruct net'; simpl; by intros [= <- _].
Qed.

Lemma import_export_roundtrip_witness :
  let d' := (DataService.importData true Committed Committed
               (Server.JsonBody
                  {| backup_entries := Some [Sample.first_entry; Sample.second_entry];
                     backup_settings := Some Server.settingsDefault;
                     exportDate := Some "2024-01-13T05:24:16.789Z" |})
               Sample.journal).1 in
  Server.get_api_entries d' = Server.get_api_entries Sample.journal
  ∧ Server.get_api_settings d' = Server.get_api_settings Sample.journal.
Proof.
  apply (import_export_roundtrip Iso.toISOString true true 1705123456789
           Sample.journal _
           {| backup_entries := Some [Sample.first_entry; Sample.second_entry];
              backup_settings := Some Server.settingsDefault;
              exportDate := Some "2024-01-13T05:24:16.789Z" |}
           []
           (Server.JsonBody
              {| backup_entries := Some [Sample.first_entry; Sample.second_entry];
                 backup_settings := Some Server.settingsDefault;
                 exportDate := Some "2024-01-13T05:24:16.789Z" |})
           (true, [])); [reflexivity | by left | reflexivity].
Defined.

(** ** Update of a stored entry *)




(** ** Adding an entry *)

(** C2, as stated, fails: an [id] and a [date] in the caller's partial take
    the place of the ones the route assigns. *)
Lemma addEntry_caller_overrides_id_and_date :
  let created : obj :=
    {[ "id" := "mine"; "date" := "yesterday"; "content" := "hello";
       "mood" := "neutral" ]} in
  DataService.addEntry Iso.toISOString true 1705123456789 1705123456789 Committed
    {[ "id" := "mine"; "date" := "yesterday"; "content" := "hello" ]}
    Sample.empty_disk
  = ({| entries_json := Some [created]; settings_json := None |}, (Some created, []))
  ∧ created !! "id" ≠ Some (Number_toString 1705123456789)
  ∧ created !! "date" ≠ Some (Iso.toISOString 1705123456789).
Proof. cbv zeta. conjuncts; [reflexivity | vm_compute; intros [=] ..]. Qed.

(** C2, amended: the created entry is the caller's partial spread over
    [{ id, date, content: "", mood: "neutral" }], where [id] is the decimal
    millisecond clock and [date] the ISO timestamp read by the route; every
    property of the partial, [id] and [date] included, wins over these, and a
    property the partial lacks keeps the assigned or default value.  When the
    write commits the route stores the entry first and answers with it;
    [DataService.addEntry] returns it when the server is reached and the text
    of the partial is within the 100 kB that the body parser takes, and
    returns [null], with nothing stored, when the text is longer. *)
Theorem addEntry_created_entry (toISOString : Z → string) (t_id t_date : Z)
    (entryData : obj) (d : Disk) :
  let newEntry := spread (Server.newEntryDefaults toISOString t_id t_date) entryData in
  let d' := with_entries (Some (newEntry :: readJSONFile (entries_json d) [])) d in
  Server.post_api_entries_add toISOString t_id t_date Committed entryData d
    = (d', json newEntry)
  ∧ ((JSON.object_length entryData ≤ 102400)%N →
     DataService.addEntry toISOString true t_id t_date Committed entryData d
     = (d', (Some newEntry, [])))
  ∧ ((102400 < JSON.object_length entryData)%N →
     DataService.addEntry toISOString true t_id t_date Committed entryData d
     = (d, (None, ["Error adding entry:"])))
  ∧ (∀ k v, entryData !! k = Some v → newEntry !! k = Some v)
  ∧ (entryData !! "id" = None → newEntry !! "id" = Some (Number_toString t_id))
  ∧ (entryData !! "date" = None → newEntry !! "date" = Some (toISOString t_date))
  ∧ (entryData !! "content" = None → newEntry !! "content" = Some "")
  ∧ (entryData !! "mood" = None → newEntry !! "mood" = Some "neutral").
Proof.
  intros newEntry d'. split; [done|]. split; [|split; [|split]].
  - intros Hfits.
    unfold DataService.addEntry, DataService.fetch, Server.express_json, Server.limit.
    by rewrite (proj2 (N.ltb_ge _ _) Hfits).
  - intros Hlong.
    unfold DataService.addEntry, DataService.fetch, Server.express_json, Server.limit.
    by rewrite (proj2 (N.ltb_lt _ _) Hlong).
  - intros k v. apply spread_lookup_over.
  - unfold newEntry.
    repeat split; intros Habsent; rewrite (spread_lookup_under _ _ _ Habsent);
      unfold Server.newEntryDefaults; by simplify_map_eq.
Qed.

Lemma addEntry_created_entry_witness :
  DataService.addEntry Iso.toISOString true 1705123456789 1705123456790 Committed
    {[ "content" := "hello"; "mood" := "happy" ]} Sample.empty_disk
  = (with_entries
       (Some [spread (Server.newEntryDefaults Iso.toISOString 1705123456789
                        1705123456790)
                {[ "content" := "hello"; "mood" := "happy" ]}])
       Sample.empty_disk,
     (Some (spread (Server.newEntryDefaults Iso.toISOString 1705123456789
                      1705123456790)
              {[ "content" := "hello"; "mood" := "happy" ]}), [])).
Proof.
  apply (addEntry_created_entry Iso.toISOString 1705123456789 1705123456790
           {[ "content" := "hello"; "mood" := "happy" ]} Sample.empty_disk).
  vm_compute. intros [=].
Defined.

(** C3, as stated, fails: two entries added within one millisecond get the
    same id, so the id returned by the second call is not unique within the
    collection. *)
Lemma addEntry_same_millisecond_same_id :
  let t : Z := 1700000000000%Z in
  let later : obj :=
    {[ "id" := "1700000000000"; "date" := "2023-11-14T22:13:20.000Z";
       "content" := "hello"; "mood" := "happy" ]} in
  let first_call :=
    Server.post_api_entries_add Iso.toISOString t t Committed
      {[ "content" := "rain all day"; "mood" := "sad" ]} Sample.empty_disk in
  let second_call :=
    Server.post_api_entries_add Iso.toISOString t t Committed
      {[ "content" := "hello"; "mood" := "happy" ]} first_call.1 in
  first_call.2 = json Sample.second_entry
  ∧ second_call.2 = json later
  ∧ Server.get_api_entries second_call.1 = json [later; Sample.second_entry]
  ∧ later !! "id" = Sample.second_entry !! "id".
Proof. cbv zeta. conjuncts; reflexivity. Qed.

(** C3, amended: for a partial without [id] and [date] keys, a successful
    add returns a record whose id is the decimal millisecond clock, hence
    non-empty, and whose date is the ISO form of a clock reading not later
    than any later reading [now]; the entries route then lists that record
    followed by the earlier collection in its order (one record more); and
    the id differs from every earlier record's id provided none of them
    already carries that numeral. *)
Theorem addEntry_prepends (toISOString : Z → string) (t_id t_date now : Z)
    (w : WriteOutcome (list obj)) (entryData : obj) (d d' : Disk) (e : obj) :
  entryData !! "id" = None →
  entryData !! "date" = None →
  (t_date ≤ now)%Z →
  Server.post_api_entries_add toISOString t_id t_date w entryData d = (d', json e) →
  ∃ es,
    Server.get_api_entries d = json es
    ∧ (∃ i, e !! "id" = Some i ∧ i = Number_toString t_id ∧ i ≠ "")
    ∧ (∃ t, e !! "date" = Some (toISOString t) ∧ (t ≤ now)%Z)
    ∧ Server.get_api_entries d' = json (e :: es)
    ∧ length (e :: es) = S (length es)
    ∧ ((∀ old : obj, old ∈ es → old !! "id" ≠ Some (Number_toString t_id)) →
       ∀ old : obj, old ∈ es → old !! "id" ≠ e !! "id").
Proof.
  intros Hid Hdate Hnow H.
  unfold Server.post_api_entries_add in H.
  destruct w as [|residue]; simpl in H; [|done].
  injection H as <- <-.
  assert (Hi : spread (Server.newEntryDefaults toISOString t_id t_date) entryData !! "id"
               = Some (Number_toString t_id)).
  { rewrite (spread_lookup_under _ _ _ Hid). unfold Server.newEntryDefaults.
    by simplify_map_eq. }
  exists (readJSONFile (entries_json d) []). conjuncts.
  - reflexivity.
  - exists (Number_toString t_id). conjuncts; [done|done|apply Number_toString_nonempty].
  - exists t_date. split; [|done].
    rewrite (spread_lookup_under _ _ _ Hdate). unfold Server.newEntryDefaults.
    by simplify_map_eq.
  - reflexivity.
  - reflexivity.
  - intros Hfresh old Hold. rewrite Hi. by apply Hfresh.
Qed.

Lemma addEntry_prepends_witness :
  ∃ es,
    Server.get_api_entries
      {| entries_json := Some [Sample.second_entry]; settings_json := None |}
    = json es
    ∧ (∃ i, Sample.first_entry !! "id" = Some i ∧ i = Number_toString 1705123456789 ∧ i ≠ "")
    ∧ (∃ t, Sample.first_entry !! "date" = Some (Iso.toISOString t) ∧ (t ≤ 1705123456800)%Z)
    ∧ Server.get_api_entries
        {| entries_json := Some [Sample.first_entry; Sample.second_entry];
           settings_json := None |}
      = json (Sample.first_entry :: es)
    ∧ length (Sample.first_entry :: es) = S (length es)
    ∧ ((∀ old : obj, old ∈ es → old !! "id" ≠ Some (Number_toString 1705123456789)) →
       ∀ old : obj, old ∈ es → old !! "id" ≠ Sample.first_entry !! "id").
Proof.
  apply (addEntry_prepends Iso.toISOString 1705123456789 1705123456789 1705123456800
           Committed {[ "content" := "walked by the river"; "mood" := "happy" ]}
           {| entries_json := Some [Sample.second_entry]; settings_json := None |}).
  - reflexivity.
  - reflexivity.
  - lia.
  - reflexivity.
Defined.

(** ** Settings and their defaults *)

Lemma withDefaults_texts (s : Settings) (k : string) :
  ∃ texts defaults,
    customTexts (AppProvider.withDefaults s) = Some texts
    ∧ customTexts AppProvider.defaultSettings = Some defaults
    ∧ texts !! k = overlay (customTexts s ≫= (.!! k)) (defaults !! k).
Proof.
  eexists _, _. split; [reflexivity|]. split; [reflexivity|].
  unfold spread. rewrite lookup_union.
  destruct (customTexts s) as [m|]; simpl.
  - by destruct (m !! k), (_ !! k).
  - rewrite lookup_empty. by destruct (_ !! k).
Qed.

(** C6, as stated, fails: after [{ theme: "dark" }] alone has been saved,
    the settings route, and [DataService.getSettings] with it, return that
    record as it is, with no [customTexts] and no [autoSave]. *)
Lemma getSettings_returns_saved_record_unmerged :
  let saved := Server.post_api_settings Committed Sample.only_dark Sample.empty_disk in
  ok saved.2 = true
  ∧ Server.get_api_settings saved.1 = json Sample.only_dark
  ∧ DataService.getSettings true saved.1 = (Sample.only_dark, [])
  ∧ customTexts Sample.only_dark = None
  ∧ autoSave Sample.only_dark = None.
Proof. cbv zeta. conjuncts; reflexivity. Qed.

(** C6, amended: the settings route returns the persisted record as it is,
    or its own three-property default (no [customTexts]) when nothing is
    persisted; the merge over the hardcoded defaults is done by [loadData]:
    each top-level property and each [customTexts] slot of the mirrored
    settings is the fetched one when present and the default otherwise, and
    with nothing persisted the mirror holds the defaults.  Hence after
    [{ theme: "dark" }] alone has been saved, the settings mirrored by
    [loadData] have the dark theme and the default [customTexts.appTitle]. *)
Theorem loadData_fills_defaults (net_entries : bool) (d : Disk)
    (st : AppProvider.State) :
  let loaded := AppProvider.settings (AppProvider.loadData net_entries true d st) in
  (∀ s, settings_json d = Some s →
     Server.get_api_settings d = json s
     ∧ theme loaded = overlay (theme s) (theme AppProvider.defaultSettings)
     ∧ autoSave loaded = overlay (autoSave s) (autoSave AppProvider.defaultSettings)
     ∧ showMoodOnCalendar loaded
       = overlay (showMoodOnCalendar s) (showMoodOnCalendar AppProvider.defaultSettings)
     ∧ ∀ k, ∃ texts defaults,
         customTexts loaded = Some texts
         ∧ customTexts AppProvider.defaultSettings = Some defaults
         ∧ texts !! k = overlay (customTexts s ≫= (.!! k)) (defaults !! k))
  ∧ (settings_json d = None →
     Server.get_api_settings d = json Server.settingsDefault
     ∧ loaded = AppProvider.defaultSettings)
  ∧ (∀ w d' r,
       Server.post_api_settings w Sample.only_dark d = (d', r) → ok r = true →
       Server.get_api_settings d' = json Sample.only_dark
       ∧ theme (AppProvider.settings (AppProvider.loadData net_entries true d' st))
         = Some dark
       ∧ customTexts (AppProvider.settings (AppProvider.loadData net_entries true d' st))
           ≫= (.!! "appTitle")
         = Some "生活记录器").
Proof.
  intros loaded.
  assert (Hload : ∀ d0, AppProvider.settings (AppProvider.loadData net_entries true d0 st)
                        = AppProvider.withDefaults
                            (readJSONFile (settings_json d0) Server.settingsDefault)).
  { intros d0. unfold AppProvider.loadData.
    by destruct (DataService.getEntries net_entries d0) as [es log]. }
  conjuncts.
  - intros s Hs. unfold loaded. rewrite Hload.
    unfold Server.get_api_settings. rewrite Hs. simpl.
    conjuncts; try reflexivity. intros k. apply withDefaults_texts.
  - intros Hnone. unfold loaded. rewrite Hload.
    unfold Server.get_api_settings. rewrite Hnone. split; reflexivity.
  - intros w d' r Hpost Hok.
    apply post_settings_ok_inv in Hpost as ->; [|done].
    rewrite Hload. conjuncts; reflexivity.
Qed.

Lemma loadData_fills_defaults_witness :
  Server.get_api_settings
    {| entries_json := entries_json Sample.journal;
       settings_json := Some Sample.only_dark |}
  = json Sample.only_dark
  ∧ theme (AppProvider.settings
             (AppProvider.loadData true true
                {| entries_json := entries_json Sample.journal;
                   settings_json := Some Sample.only_dark |}
                AppProvider.initialState))
    = Some dark
  ∧ customTexts (AppProvider.settings
                   (AppProvider.loadData true true
                      {| entries_json := entries_json Sample.journal;
                         settings_json := Some Sample.only_dark |}
                      AppProvider.initialState))
      ≫= (.!! "appTitle")
    = Some "生活记录器".
Proof.
  apply (proj2 (proj2 (loadData_fills_defaults true Sample.journal
                         AppProvider.initialState))
           Committed _ (json "Settings saved successfully")).
  - reflexivity.
  - reflexivity.
Defined.

(** ** Import of a malformed or partial payload *)




(** ** Loading when a request fails *)

(** C9, as stated, fails: when the entries request fails, a mirror that held
    two entries is left with none. *)
Lemma loadData_failed_fetch_empties_mirror :
  let after := AppProvider.loadData false true Sample.journal Sample.loaded in
  AppProvider.entries Sample.loaded = [Sample.first_entry; Sample.second_entry]
  ∧ AppProvider.entries after = []
  ∧ AppProvider.console after = ["Error fetching entries:"].
Proof. cbv zeta. conjuncts; reflexivity. Qed.

(** C9, amended: a failed request is logged by the [DataService] method,
    which hands [loadData] a substitute that replaces the mirror: the empty
    list for a failed entries request, the hardcoded default settings for a
    failed settings request.  The other request's result is installed as
    usual, and the busy flag is cleared at the end. *)
Theorem loadData_failed_fetch_substitutes (d : Disk) (st : AppProvider.State) :
  (∀ net_settings,
     AppProvider.entries (AppProvider.loadData false net_settings d st) = []
     ∧ "Error fetching entries:"
         ∈ AppProvider.console (AppProvider.loadData false net_settings d st)
     ∧ AppProvider.isLoading (AppProvider.loadData false net_settings d st) = false)
  ∧ (∀ net_entries,
       AppProvider.settings (AppProvider.loadData net_entries false d st)
         = AppProvider.defaultSettings
       ∧ "Error fetching settings:"
           ∈ AppProvider.console (AppProvider.loadData net_entries false d st)
       ∧ AppProvider.isLoading (AppProvider.loadData net_entries false d st) = false)
  ∧ AppProvider.entries (AppProvider.loadData true false d st)
    = readJSONFile (entries_json d) []
  ∧ AppProvider.settings (AppProvider.loadData false true d st)
    = AppProvider.withDefaults (readJSONFile (settings_json d) Server.settingsDefault).
Proof.
  conjuncts.
  - intros []; conjuncts; try reflexivity; simpl; set_solver.
  - intros []; conjuncts; try reflexivity; simpl; set_solver.
  - reflexivity.
  - reflexivity.
Qed.

(** * Further properties of the routes and of the provider *)

(** ** Settings: save, then read *)

(** X1: when [DataService.saveSettings] returns [true], the settings route
    and [DataService.getSettings] return exactly the saved record, with
    nothing merged in, and the entries file is as before. *)
Theorem saveSettings_then_getSettings (net : bool) (w : WriteOutcome Settings)
    (s : Settings) (d d' : Disk) (log : list string) :
  DataService.saveSettings net w s d = (d', (true, log)) →
  Server.get_api_settings d' = json s
  ∧ DataService.getSettings true d' = (s, [])
  ∧ entries_json d' = entries_json d.
Proof. intros H. by apply DataService_saveSettings_ok in H as ->. Qed.

Lemma saveSettings_then_getSettings_witness :
  Server.get_api_settings
    (DataService.saveSettings true Committed Sample.only_dark Sample.journal).1
  = json Sample.only_dark.
Proof.
  apply (saveSettings_then_getSettings true Committed Sample.only_dark
           Sample.journal _ []).
  reflexivity.
Defined.

(** ** The two files are independent *)

(** X2: whatever the write does, the routes for entries (bulk save, add,
    update, delete) leave the settings file as it was, and the settings
    route leaves the entries file as it was. *)
Theorem entries_and_settings_files_independent (toISOString : Z → string)
    (w : WriteOutcome (list obj)) (w' : WriteOutcome Settings) (d : Disk) :
  (∀ es, settings_json (Server.post_api_entries w es d).1 = settings_json d)
  ∧ (∀ t_id t_date entryData,
       settings_json (Server.post_api_entries_add toISOString t_id t_date w entryData d).1
       = settings_json d)
  ∧ (∀ id updates,
       settings_json (Server.put_api_entries_id w id updates d).1 = settings_json d)
  ∧ (∀ id, settings_json (Server.delete_api_entries_id w id d).1 = settings_json d)
  ∧ (∀ s, entries_json (Server.post_api_settings w' s d).1 = entries_json d).
Proof.
  conjuncts.
  - intros es. unfold Server.post_api_entries. by destruct w.
  - intros t_id t_date entryData. unfold Server.post_api_entries_add. by destruct w.
  - intros id updates. unfold Server.put_api_entries_id.
    destruct (list_find _ _) as [[i e]|]; [|done]. by destruct w.
  - intros id. unfold Server.delete_api_entries_id. by destruct w.
  - intros s. unfold Server.post_api_settings. by destruct w'.
Qed.

(** ** Update keeps the rest of the collection *)



(** ** Delete removes every record with the id *)

(** X4: after a successful deletion the listed collection is the earlier one
    filtered, in the earlier order and with the earlier repetitions, of the
    records carrying the id that the request path brought to the route; when
    the id is plain that is the id of the call, and no listed record carries
    it any more. *)
Theorem deleteEntry_removes_every_match (net : bool) (w : WriteOutcome (list obj))
    (id : string) (d d' : Disk) (log : list string) (es es' : list obj) :
  Server.get_api_entries d = json es →
  DataService.deleteEntry net w id d = (d', (true, log)) →
  Server.get_api_entries d' = json es' →
  (∃ entryId, es' = filter (λ e : obj, e !! "id" ≠ Some entryId) es)
  ∧ (Url.plain id = true →
     es' = filter (λ e : obj, e !! "id" ≠ Some id) es
     ∧ ∀ e : obj, e ∈ es' → e !! "id" ≠ Some id).
Proof.
  intros [= Hes] H [= Hes'].
  apply DataService_deleteEntry_ok in H as (entryId & _ & Hplain & ->).
  simpl in Hes'. rewrite Hes in Hes'. subst es'.
  split; [by exists entryId|].
  intros Hp. rewrite (Hplain Hp). split; [done|].
  intros e He. by apply list_elem_of_filter in He as [He _].
Qed.

Lemma deleteEntry_removes_every_match_witness :
  [Sample.second_entry]
  = filter (λ e : obj, e !! "id" ≠ Some "1705123456789")
      [Sample.first_entry; Sample.second_entry].
Proof.
  apply (deleteEntry_removes_every_match true Committed "1705123456789"
           Sample.journal
           (DataService.deleteEntry true Committed "1705123456789" Sample.journal).1 []
           [Sample.first_entry; Sample.second_entry] [Sample.second_entry]);
    reflexivity.
Defined.

(** X5: after a successful deletion, an update with the same id finds
    nothing: [DataService.updateEntry] returns [false] and the data
    directory stays as the deletion left it; when the id is plain, the
    update route given that id answers 404. *)
Theorem deleteEntry_then_updateEntry_not_found (net net' : bool)
    (w w' : WriteOutcome (list obj)) (id : string) (updates : obj)
    (d d' : Disk) (log : list string) :
  DataService.deleteEntry net w id d = (d', (true, log)) →
  (∃ log', DataService.updateEntry net' w' id updates d' = (d', (false, log')))
  ∧ (Url.plain id = true →
     Server.put_api_entries_id w' id updates d'
     = (d', status_json NotFound404 "Entry not found")).
Proof.
  intros H.
  apply DataService_deleteEntry_ok in H as (entryId & Hpath & Hplain & Hd').
  assert (Habs : ∀ e : obj, e ∈ readJSONFile (entries_json d') [] →
                   e !! "id" ≠ Some entryId).
  { intros e He. subst d'. simpl in He.
    by apply list_elem_of_filter in He as [He _]. }
  split.
  - by apply (DataService_updateEntry_unknown net' w' id entryId).
  - intros Hp. rewrite (Hplain Hp) in Habs. by apply put_unknown_id.
Qed.

Lemma deleteEntry_then_updateEntry_not_found_witness :
  ∃ log',
    DataService.updateEntry true Committed "1705123456789" {[ "content" := "edited" ]}
      {| entries_json := Some [Sample.second_entry]; settings_json := None |}
    = ({| entries_json := Some [Sample.second_entry]; settings_json := None |},
       (false, log')).
Proof.
  apply (deleteEntry_then_updateEntry_not_found true true Committed Committed
           "1705123456789" {[ "content" := "edited" ]} Sample.journal _ []).
  reflexivity.
Defined.

(** ** Add, then delete *)

(** X6: when the partial has no [id] key and no listed record carries the
    decimal numeral of the clock reading, adding an entry and then deleting
    the id it was given leaves the listed collection as it was. *)
Theorem addEntry_then_deleteEntry_restores (toISOString : Z → string)
    (net net' : bool) (t_id t_date : Z) (w w' : WriteOutcome (list obj))
    (entryData : obj) (d d1 d2 : Disk) (e : obj) (log log' : list string)
    (es : list obj) :
  Server.get_api_entries d = json es →
  entryData !! "id" = None →
  (∀ old : obj, old ∈ es → old !! "id" ≠ Some (Number_toString t_id)) →
  DataService.addEntry toISOString net t_id t_date w entryData d = (d1, (Some e, log)) →
  DataService.deleteEntry net' w' (Number_toString t_id) d1 = (d2, (true, log')) →
  Server.get_api_entries d2 = json es.
Proof.
  intros [= Hes] Hid Hfresh Hadd Hdel.
  apply DataService_addEntry_ok in Hadd as [He ->].
  apply DataService_deleteEntry_ok in Hdel as (entryId & _ & Hplain & ->).
  rewrite (Hplain (Number_toString_plain t_id)).
  unfold Server.get_api_entries. simpl. rewrite Hes. f_equal.
  rewrite filter_cons_False.
  - by apply filter_absent_id.
  - intros Hne. apply Hne. rewrite He, (spread_lookup_under _ _ _ Hid).
    unfold Server.newEntryDefaults. by simplify_map_eq.
Qed.

Lemma addEntry_then_deleteEntry_restores_witness :
  Server.get_api_entries
    (DataService.deleteEntry true Committed (Number_toString 1705123456789)
       (DataService.addEntry Iso.toISOString true 1705123456789 1705123456789 Committed
          {[ "content" := "walked by the river"; "mood" := "happy" ]}
          {| entries_json := Some [Sample.second_entry]; settings_json := None |}).1).1
  = json [Sample.second_entry].
Proof.
  eapply (addEntry_then_deleteEntry_restores Iso.toISOString true true
           1705123456789 1705123456789 Committed Committed
           {[ "content" := "walked by the river"; "mood" := "happy" ]}
           {| entries_json := Some [Sample.second_entry]; settings_json := None |}
           _ _ Sample.first_entry [] []).
  - reflexivity.
  - reflexivity.
  - intros old Hold. members Hold. vm_compute. intros [=].
  - reflexivity.
  - reflexivity.
Defined.

(** ** Repeating an update *)

Lemma spread_twice (e updates : obj) :
  spread (spread e updates) updates = spread e updates.
Proof. unfold spread. by rewrite (assoc_L (∪)), (idemp_L (∪)). Qed.

Lemma find_by_id_after_update (id : string) (es : list obj) (i : nat) (e e' : obj) :
  list_find (λ entry : obj, entry !! "id" = Some id) es = Some (i, e) →
  e' !! "id" = Some id →
  list_find (λ entry : obj, entry !! "id" = Some id) (<[i := e']> es) = Some (i, e').
Proof.
  intros Hfind He'.
  apply find_by_id_Some in Hfind as (Hi & _ & Hbefore).
  apply list_find_Some. conjuncts.
  - apply list_lookup_insert_eq. by eapply lookup_lt_Some.
  - done.
  - intros j y Hj Hlt. rewrite list_lookup_insert_ne in Hj by lia.
    by eapply Hbefore.
Qed.

(** X7: when the partial has no [id] key, or the id of the call is plain
    and the partial repeats it, a second successful update with the same id
    and partial leaves the listed collection as the first one left it. *)
Theorem updateEntry_twice_same_partial (net net' : bool)
    (w w' : WriteOutcome (list obj)) (id : string) (updates : obj)
    (d d1 d2 : Disk) (log log' : list string) :
  updates !! "id" = None ∨ (Url.plain id = true ∧ updates !! "id" = Some id) →
  DataService.updateEntry net w id updates d = (d1, (true, log)) →
  DataService.updateEntry net' w' id updates d1 = (d2, (true, log')) →
  Server.get_api_entries d2 = Server.get_api_entries d1.
Proof.
  intros Hid H1 H2.
  apply DataService_updateEntry_ok in H1 as (id1 & i & e & Hpath1 & Hplain & Hfind & ->).
  apply DataService_updateEntry_ok in H2 as (id2 & i' & e' & Hpath2 & _ & Hfind' & ->).
  rewrite Hpath1 in Hpath2. injection Hpath2 as <-.
  simpl in Hfind'.
  assert (Hmerged : spread e updates !! "id" = Some id1).
  { destruct Hid as [Hid|[Hp Hid]].
    - rewrite (spread_lookup_under _ _ _ Hid).
      by apply find_by_id_Some in Hfind as (_ & ? & _).
    - rewrite (Hplain Hp). by apply spread_lookup_over. }
  rewrite (find_by_id_after_update _ _ _ _ _ Hfind Hmerged) in Hfind'.
  injection Hfind' as <- <-.
  unfold Server.get_api_entries. simpl. f_equal.
  by rewrite spread_twice, list_insert_insert_eq.
Qed.

Lemma updateEntry_twice_same_partial_witness :
  Server.get_api_entries
    (DataService.updateEntry true Committed "1700000000000" {[ "mood" := "happy" ]}
       (DataService.updateEntry true Committed "1700000000000" {[ "mood" := "happy" ]}
          Sample.journal).1).1
  = Server.get_api_entries
      (DataService.updateEntry true Committed "1700000000000" {[ "mood" := "happy" ]}
         Sample.journal).1.
Proof.
  eapply (updateEntry_twice_same_partial true true Committed Committed "1700000000000"
           {[ "mood" := "happy" ]} Sample.journal _ _ [] []).
  - left. reflexivity.
  - reflexivity.
  - reflexivity.
Defined.

(** X8: when the id is plain, a successful update whose partial only
    repeats values that every record carrying the id already has (the empty
    partial, for one) leaves the listed collection as it was. *)
Theorem updateEntry_nothing_new (net : bool) (w : WriteOutcome (list obj))
    (id : string) (updates : obj) (d d' : Disk) (log : list string)
    (es : list obj) :
  Url.plain id = true →
  Server.get_api_entries d = json es →
  (∀ e : obj, e ∈ es → e !! "id" = Some id → updates ⊆ e) →
  DataService.updateEntry net w id updates d = (d', (true, log)) →
  Server.get_api_entries d' = json es.
Proof.
  intros Hp [= Hes] Hsub H.
  apply DataService_updateEntry_ok in H as (entryId & i & e & _ & Hplain & Hfind & ->).
  rewrite (Hplain Hp) in Hfind.
  rewrite Hes in Hfind |- *.
  apply find_by_id_Some in Hfind as (Hi & Hid & _).
  unfold Server.get_api_entries. simpl. f_equal.
  apply list_insert_id. rewrite Hi. f_equal.
  unfold spread. symmetry. apply map_subseteq_union.
  apply Hsub; [|done]. by eapply list_elem_of_lookup_2.
Qed.

Lemma updateEntry_nothing_new_witness :
  Server.get_api_entries
    (DataService.updateEntry true Committed "1700000000000" ∅ Sample.journal).1
  = json [Sample.first_entry; Sample.second_entry].
Proof.
  eapply (updateEntry_nothing_new true Committed "1700000000000" ∅ Sample.journal _ []).
  - reflexivity.
  - reflexivity.
  - intros e _ _. apply map_empty_subseteq.
  - reflexivity.
Defined.

(** ** Import replaces, it does not merge *)

(** X9: when the writes commit, an import replaces each part that the body
    has: the entries route then lists exactly the body's entries and the
    settings route returns exactly the body's settings, whatever the files
    held before. *)
Theorem importData_replaces_wholesale (net : bool) (body : Backup) (d d' : Disk)
    (log : list string) :
  DataService.importData net Committed Committed (Server.JsonBody body) d
    = (d', (true, log)) →
  (∀ es, backup_entries body = Some es → Server.get_api_entries d' = json es)
  ∧ (∀ s, backup_settings body = Some s → Server.get_api_settings d' = json s).
Proof.
  unfold DataService.importData, DataService.fetch.
  destruct net; [|done]. simpl. intros [= <-].
  split.
  - intros es ->. by destruct (backup_settings body).
  - intros s ->. by destruct (backup_entries body).
Qed.

Lemma importData_replaces_wholesale_witness :
  Server.get_api_entries
    (DataService.importData true Committed Committed
       (Server.JsonBody
          {| backup_entries := Some []; backup_settings := Some Sample.only_dark;
             exportDate := None |}) Sample.journal).1
  = json [].
Proof.
  eapply (proj1 (importData_replaces_wholesale true
                   {| backup_entries := Some []; backup_settings := Some Sample.only_dark;
                      exportDate := None |} Sample.journal _ [] eq_refl)).
  reflexivity.
Defined.

(** ** The mirror after a failed call *)

(** X10: when the server cannot be reached or the file write is rejected,
    [addEntry], [updateEntry] and a confirmed [deleteEntry] leave the
    mirrored entries as they were; [updateEntry] and [deleteEntry] show
    their failure alert, and [addEntry] shows none. *)
Theorem failed_store_call_keeps_mirror (toISOString : Z → string) (net : bool)
    (w : WriteOutcome (list obj)) (t_id t_date : Z) (entry : obj) (id : string)
    (updates : obj) (d : Disk) (st : AppProvider.State) :
  net = false ∨ (∃ residue, w = Rejected residue) →
  AppProvider.entries (AppProvider.addEntry toISOString net t_id t_date w entry d st).2
    = AppProvider.entries st
  ∧ AppProvider.alerts (AppProvider.addEntry toISOString net t_id t_date w entry d st).2
    = AppProvider.alerts st
  ∧ AppProvider.entries (AppProvider.updateEntry net w id updates d st).2
    = AppProvider.entries st
  ∧ AppProvider.alerts (AppProvider.updateEntry net w id updates d st).2
    = (AppProvider.alerts st ++ ["更新记录失败，请重试"])%list
  ∧ AppProvider.entries (AppProvider.deleteEntry true net w id d st).2
    = AppProvider.entries st
  ∧ AppProvider.alerts (AppProvider.deleteEntry true net w id d st).2
    = (AppProvider.alerts st ++ ["删除记录失败，请重试"])%list.
Proof.
  intros Hfail.
  assert (Hadd : (DataService.addEntry toISOString net t_id t_date w entry d).2.1 = None).
  { unfold DataService.addEntry, DataService.fetch, Server.express_json.
    destruct net; [|done].
    destruct Hfail as [[=]|[residue ->]].
    by destruct (Server.limit <? _)%N. }
  assert (Hupd : (DataService.updateEntry net w id updates d).2.1 = false).
  { unfold DataService.updateEntry, DataService.fetch, Server.put_entries,
      Server.express_json.
    destruct net; [|done].
    destruct Hfail as [[=]|[residue ->]].
    destruct (Server.limit <? _)%N; [done|].
    destruct (Server.entries_id _); [done|done|].
    unfold Server.put_api_entries_id.
    by destruct (list_find _ _) as [[i e]|]. }
  assert (Hdel : (DataService.deleteEntry net w id d).2.1 = false).
  { unfold DataService.deleteEntry, DataService.fetch, Server.delete_entries.
    destruct net; [|done].
    destruct Hfail as [[=]|[residue ->]].
    by destruct (Server.entries_id _). }
  unfold AppProvider.addEntry, AppProvider.updateEntry, AppProvider.deleteEntry.
  destruct (DataService.addEntry _ _ _ _ _ _ _) as [d1 [e1 l1]].
  destruct (DataService.updateEntry _ _ _ _ _) as [d2 [s2 l2]].
  destruct (DataService.deleteEntry _ _ _ _) as [d3 [s3 l3]].
  simpl in Hadd, Hupd, Hdel. subst e1 s2 s3. by conjuncts.
Qed.

Lemma failed_store_call_keeps_mirror_witness :
  AppProvider.entries
    (AppProvider.addEntry Iso.toISOString false 1705123456789 1705123456789 Committed
       {[ "content" := "hello" ]} Sample.journal Sample.loaded).2
  = AppProvider.entries Sample.loaded.
Proof.
  apply (failed_store_call_keeps_mirror Iso.toISOString false Committed
           1705123456789 1705123456789 {[ "content" := "hello" ]} "1700000000000"
           ∅ Sample.journal Sample.loaded).
  by left.
Defined.

(** ** The mirror follows the store *)

(** X11: if the mirror holds what the entries route lists and
    [DataService.addEntry] returns the created entry, then [addEntry] puts
    that entry in front of the mirror, and the mirror again holds what the
    entries route lists. *)
Theorem addEntry_mirror_follows_store (toISOString : Z → string) (net : bool)
    (t_id t_date : Z) (w : WriteOutcome (list obj)) (entry : obj) (d d' : Disk)
    (e : obj) (log : list string) (st : AppProvider.State) :
  Server.get_api_entries d = json (AppProvider.entries st) →
  DataService.addEntry toISOString net t_id t_date w entry d = (d', (Some e, log)) →
  (AppProvider.addEntry toISOString net t_id t_date w entry d st).1 = d'
  ∧ AppProvider.entries (AppProvider.addEntry toISOString net t_id t_date w entry d st).2
    = e :: AppProvider.entries st
  ∧ Server.get_api_entries d'
    = json (AppProvider.entries
              (AppProvider.addEntry toISOString net t_id t_date w entry d st).2).
Proof.
  intros [= Hes] Hadd.
  unfold AppProvider.addEntry. rewrite Hadd. simpl.
  apply DataService_addEntry_ok in Hadd as [_ ->].
  unfold Server.get_api_entries. simpl. by rewrite Hes.
Qed.

Lemma addEntry_mirror_follows_store_witness :
  AppProvider.entries
    (AppProvider.addEntry Iso.toISOString true 1705123456789 1705123456789 Committed
       {[ "content" := "walked by the river"; "mood" := "happy" ]}
       {| entries_json := Some [Sample.second_entry]; settings_json := None |}
       (AppProvider.setEntries [Sample.second_entry] AppProvider.initialState)).2
  = [Sample.first_entry; Sample.second_entry].
Proof.
  eapply (addEntry_mirror_follows_store Iso.toISOString true 1705123456789
            1705123456789 Committed
            {[ "content" := "walked by the river"; "mood" := "happy" ]}
            {| entries_json := Some [Sample.second_entry]; settings_json := None |}
            _ Sample.first_entry []
            (AppProvider.setEntries [Sample.second_entry] AppProvider.initialState)).
  - reflexivity.
  - reflexivity.
Defined.

(** X12: if the mirror holds what the entries route lists, the id is plain,
    so that the request path carries it to the route unchanged, and
    [DataService.deleteEntry] returns [true], then a confirmed [deleteEntry]
    leaves the mirror holding what the entries route lists. *)
Theorem deleteEntry_mirror_follows_store (net : bool) (w : WriteOutcome (list obj))
    (id : string) (d d' : Disk) (log : list string) (st : AppProvider.State) :
  Url.plain id = true →
  Server.get_api_entries d = json (AppProvider.entries st) →
  DataService.deleteEntry net w id d = (d', (true, log)) →
  (AppProvider.deleteEntry true net w id d st).1 = d'
  ∧ Server.get_api_entries d'
    = json (AppProvider.entries (AppProvider.deleteEntry true net w id d st).2).
Proof.
  intros Hp [= Hes] Hdel.
  unfold AppProvider.deleteEntry. simpl. rewrite Hdel. simpl.
  apply DataService_deleteEntry_ok in Hdel as (entryId & _ & Hplain & ->).
  rewrite (Hplain Hp).
  unfold Server.get_api_entries. simpl. by rewrite Hes.
Qed.

Lemma deleteEntry_mirror_follows_store_witness :
  Server.get_api_entries
    (DataService.deleteEntry true Committed "1700000000000" Sample.journal).1
  = json (AppProvider.entries
            (AppProvider.deleteEntry true true Committed "1700000000000"
               Sample.journal Sample.loaded).2).
Proof.
  eapply (deleteEntry_mirror_follows_store true Committed "1700000000000"
            Sample.journal _ [] Sample.loaded).
  - reflexivity.
  - reflexivity.
  - reflexivity.
Defined.

(** X13: the update route rewrites the first record carrying the id, the
    mirror every record carrying it.  If the mirror holds what the entries
    route lists, the id is plain, so that the request path carries it to the
    route unchanged, at most one record carries the id and
    [DataService.updateEntry] returns [true], then [updateEntry] leaves the
    mirror holding what the entries route lists. *)
Theorem updateEntry_mirror_follows_store (net : bool) (w : WriteOutcome (list obj))
    (id : string) (updates : obj) (d d' : Disk) (log : list string)
    (st : AppProvider.State) :
  Url.plain id = true →
  Server.get_api_entries d = json (AppProvider.entries st) →
  (∀ j k ej ek,
     AppProvider.entries st !! j = Some ej → AppProvider.entries st !! k = Some ek →
     ej !! "id" = Some id → ek !! "id" = Some id → j = k) →
  DataService.updateEntry net w id updates d = (d', (true, log)) →
  (AppProvider.updateEntry net w id updates d st).1 = d'
  ∧ Server.get_api_entries d'
    = json (AppProvider.entries (AppProvider.updateEntry net w id updates d st).2).
Proof.
  intros Hp [= Hes] Huniq Hupd.
  unfold AppProvider.updateEntry. rewrite Hupd. simpl.
  apply DataService_updateEntry_ok in Hupd as (entryId & i & e & _ & Hplain & Hfind & ->).
  rewrite (Hplain Hp) in Hfind.
  split; [done|].
  unfold Server.get_api_entries. simpl. rewrite Hes in Hfind |- *. f_equal.
  apply find_by_id_Some in Hfind as (Hi & Hid & _).
  apply list_eq. intros j. rewrite list_lookup_fmap.
  destruct (decide (j = i)) as [->|Hne].
  - rewrite list_lookup_insert_eq by (by eapply lookup_lt_Some).
    rewrite Hi. simpl. by rewrite decide_True.
  - rewrite list_lookup_insert_ne by done.
    destruct (AppProvider.entries st !! j) as [ej|] eqn:Hj; [|done].
    simpl. rewrite decide_False; [done|].
    intros Hidj. apply Hne. by eapply Huniq.
Qed.

Lemma updateEntry_mirror_follows_store_witness :
  Server.get_api_entries
    (DataService.updateEntry true Committed "1700000000000" {[ "mood" := "happy" ]}
       Sample.journal).1
  = json (AppProvider.entries
            (AppProvider.updateEntry true Committed "1700000000000"
               {[ "mood" := "happy" ]} Sample.journal Sample.loaded).2).
Proof.
  eapply (updateEntry_mirror_follows_store true Committed "1700000000000"
            {[ "mood" := "happy" ]} Sample.journal _ [] Sample.loaded).
  - reflexivity.
  - reflexivity.
  - change (AppProvider.entries Sample.loaded)
      with [Sample.first_entry; Sample.second_entry].
    assert (Hone : ∀ n (e : obj),
               [Sample.first_entry; Sample.second_entry] !! n = Some e →
               e !! "id" = Some "1700000000000" → n = 1).
    { intros [|[|n]] e Hn He; [|done|done].
      injection Hn as <-. vm_compute in He. discriminate He. }
    intros j k ej ek Hj Hk Hidj Hidk.
    by rewrite (Hone j ej), (Hone k ek).
  - reflexivity.
Defined.

(** X14: when two records carry the id and the partial changes the later
    one, a successful update leaves the mirror different from what the
    entries route lists, even if they agreed before: the route rewrites the
    first record only. *)
Theorem updateEntry_mirror_diverges_on_duplicate_id (net : bool)
    (w : WriteOutcome (list obj)) (id : string) (updates : obj) (d d' : Disk)
    (log : list string) (st : AppProvider.State) (j k : nat) (ej ek : obj) :
  Server.get_api_entries d = json (AppProvider.entries st) →
  AppProvider.entries st !! j = Some ej → ej !! "id" = Some id →
  AppProvider.entries st !! k = Some ek → ek !! "id" = Some id →
  j < k →
  spread ek updates ≠ ek →
  DataService.updateEntry net w id updates d = (d', (true, log)) →
  Server.get_api_entries d'
  ≠ json (AppProvider.entries (AppProvider.updateEntry net w id updates d st).2).
Proof.
  intros [= Hes] Hj Hidj Hk Hidk Hlt Hchange Hupd.
  unfold AppProvider.updateEntry. rewrite Hupd. simpl.
  apply DataService_updateEntry_ok in Hupd as (entryId & i & e & _ & _ & Hfind & ->).
  rewrite Hes in Hfind.
  apply find_by_id_Some in Hfind as (Hi & Hid & Hbefore).
  assert (Hik : i ≠ k).
  { intros ->. rewrite Hk in Hi. injection Hi as <-.
    rewrite Hidk in Hid. injection Hid as <-.
    by eapply (Hbefore j ej). }
  unfold Server.get_api_entries. simpl. rewrite Hes. intros [= Heq].
  apply (f_equal (λ l : list obj, l !! k)) in Heq.
  rewrite list_lookup_insert_ne, list_lookup_fmap, Hk in Heq by done.
  simpl in Heq. rewrite decide_True in Heq by done.
  injection Heq as Heq. by apply Hchange.
Qed.

Lemma updateEntry_mirror_diverges_on_duplicate_id_witness :
  Sample.second_entry !! "id" = Some "1700000000000"
  ∧ Server.get_api_entries
    (DataService.updateEntry true Committed "1700000000000" {[ "mood" := "happy" ]}
       {| entries_json := Some [Sample.second_entry; Sample.second_entry];
          settings_json := None |}).1
  ≠ json (AppProvider.entries
            (AppProvider.updateEntry true Committed "1700000000000"
               {[ "mood" := "happy" ]}
               {| entries_json := Some [Sample.second_entry; Sample.second_entry];
                  settings_json := None |}
               (AppProvider.setEntries [Sample.second_entry; Sample.second_entry]
                  AppProvider.initialState)).2).
Proof.
  split; [reflexivity|].
  eapply (updateEntry_mirror_diverges_on_duplicate_id true Committed "1700000000000"
            {[ "mood" := "happy" ]}
            {| entries_json := Some [Sample.second_entry; Sample.second_entry];
               settings_json := None |} _ []
            (AppProvider.setEntries [Sample.second_entry; Sample.second_entry]
               AppProvider.initialState)
            0 1 Sample.second_entry Sample.second_entry).
  - reflexivity.
  - reflexivity.
  - reflexivity.
  - reflexivity.
  - reflexivity.
  - lia.
  - intros Heq. apply (f_equal (λ m : obj, m !! "mood")) in Heq.
    vm_compute in Heq. discriminate Heq.
  - reflexivity.
Defined.

(** ** The busy flag *)

(** X15: [loadData], [addEntry], [updateEntry] and a confirmed [deleteEntry]
    end with the busy flag cleared, whatever the server and the file system
    did; a [deleteEntry] that the user does not confirm sends nothing and
    changes nothing. *)
Theorem busy_flag_cleared (toISOString : Z → string) (net net' : bool)
    (w : WriteOutcome (list obj)) (t_id t_date : Z) (entry : obj) (id : string)
    (updates : obj) (d : Disk) (st : AppProvider.State) :
  AppProvider.isLoading (AppProvider.loadData net net' d st) = false
  ∧ AppProvider.isLoading
      (AppProvider.addEntry toISOString net t_id t_date w entry d st).2 = false
  ∧ AppProvider.isLoading (AppProvider.updateEntry net w id updates d st).2 = false
  ∧ AppProvider.isLoading (AppProvider.deleteEntry true net w id d st).2 = false
  ∧ AppProvider.deleteEntry false net w id d st = (d, st).
Proof.
  conjuncts.
  - unfold AppProvider.loadData.
    destruct (DataService.getEntries net d) as [es l1].
    by destruct (DataService.getSettings net' d) as [s l2].
  - unfold AppProvider.addEntry.
    by destruct (DataService.addEntry _ _ _ _ _ _ _) as [d1 [[e|] l]].
  - unfold AppProvider.updateEntry.
    by destruct (DataService.updateEntry _ _ _ _ _) as [d1 [[|] l]].
  - unfold AppProvider.deleteEntry. simpl.
    by destruct (DataService.deleteEntry _ _ _ _) as [d1 [[|] l]].
  - reflexivity.
Qed.

(** ** Generated ids *)

(** X16: two entries created from partials without an [id] key at different
    readings of the millisecond clock get different ids. *)
Theorem addEntry_distinct_clock_distinct_ids (toISOString : Z → string)
    (t1 t1' t2 t2' : Z) (w1 w2 : WriteOutcome (list obj)) (p1 p2 : obj)
    (d1 d1' d2 d2' : Disk) (e1 e2 : obj) :
  p1 !! "id" = None → p2 !! "id" = None →
  t1 ≠ t2 →
  Server.post_api_entries_add toISOString t1 t1' w1 p1 d1 = (d1', json e1) →
  Server.post_api_entries_add toISOString t2 t2' w2 p2 d2 = (d2', json e2) →
  e1 !! "id" ≠ e2 !! "id".
Proof.
  intros Hp1 Hp2 Hne H1 H2.
  unfold Server.post_api_entries_add in H1, H2.
  destruct w1 as [|r1]; simpl in H1; [|done].
  destruct w2 as [|r2]; simpl in H2; [|done].
  injection H1 as _ <-. injection H2 as _ <-.
  rewrite (spread_lookup_under _ _ _ Hp1), (spread_lookup_under _ _ _ Hp2).
  unfold Server.newEntryDefaults. simplify_map_eq.
  intros [= Heq]. by apply Number_toString_inj in Heq.
Qed.

Lemma addEntry_distinct_clock_distinct_ids_witness :
  Sample.first_entry !! "id" = Some (Number_toString 1705123456789)
  ∧ Sample.first_entry !! "id" ≠ Sample.second_entry !! "id".
Proof.
  split; [reflexivity|].
  eapply (addEntry_distinct_clock_distinct_ids Iso.toISOString
            1705123456789 1705123456789 1700000000000 1700000000000
            Committed Committed
            {[ "content" := "walked by the river"; "mood" := "happy" ]}
            {[ "content" := "rain all day"; "mood" := "sad" ]}
            Sample.empty_disk _ Sample.empty_disk _).
  - reflexivity.
  - reflexivity.
  - lia.
  - reflexivity.
  - reflexivity.
Defined.

(** ** Submitting the entry modal *)

(** X17: when the modal edits an entry whose id is plain, so that the
    request path carries it to the route unchanged, and no failure alert is
    shown, the first listed record carrying the id has been replaced by a
    record with the submitted content and mood whose every other property,
    [id] and [date] among them, is as before; and the modal is closed. *)
Theorem modal_edit_keeps_id_and_date (toISOString : Z → string) (net : bool)
    (t_id t_date : Z) (w : WriteOutcome (list obj)) (id content mood : string)
    (d d' : Disk) (st st' : AppProvider.State) (m m' : EntryModal.Modal)
    (es : list obj) :
  Url.plain id = true →
  Server.get_api_entries d = json es →
  EntryModal.handleSubmit toISOString net t_id t_date w (Some id) content mood d st m
    = (d', st', m') →
  AppProvider.alerts st' = AppProvider.alerts st →
  ∃ i e e',
    list_find (λ entry : obj, entry !! "id" = Some id) es = Some (i, e)
    ∧ Server.get_api_entries d' = json (<[i := e']> es)
    ∧ e' !! "content" = Some content
    ∧ e' !! "mood" = Some mood
    ∧ (∀ k, k ≠ "content" → k ≠ "mood" → e' !! k = e !! k)
    ∧ e' !! "id" = Some id
    ∧ e' !! "date" = e !! "date"
    ∧ m' = {| EntryModal.showModal := None; EntryModal.editingEntry := None |}.
Proof.
  intros Hp [= Hes] Hsubmit Halerts.
  unfold EntryModal.handleSubmit, AppProvider.updateEntry in Hsubmit.
  destruct (DataService.updateEntry net w id _ d) as [d1 [success log]] eqn:Hupd.
  injection Hsubmit as <- <- <-.
  destruct success; simpl in Halerts.
  - apply DataService_updateEntry_ok in Hupd as (entryId & i & e & _ & Hplain & Hfind & ->).
    rewrite (Hplain Hp) in Hfind.
    rewrite Hes in Hfind |- *.
    pose proof (find_by_id_Some _ _ _ _ Hfind) as (_ & Hid & _).
    assert (Hother : ∀ k, k ≠ "content" → k ≠ "mood" →
              spread e {[ "content" := content; "mood" := mood ]} !! k = e !! k).
    { intros k Hc Hm. apply spread_lookup_under. by simplify_map_eq. }
    exists i, e, (spread e {[ "content" := content; "mood" := mood ]}).
    conjuncts; try done.
    + apply spread_lookup_over. by simplify_map_eq.
    + apply spread_lookup_over. by simplify_map_eq.
    + by rewrite Hother.
    + by apply Hother.
  - apply (f_equal length) in Halerts. rewrite length_app in Halerts.
    simpl in Halerts. lia.
Qed.

Lemma modal_edit_keeps_id_and_date_witness :
  ∃ i e e',
    list_find (λ entry : obj, entry !! "id" = Some "1700000000000")
      [Sample.first_entry; Sample.second_entry] = Some (i, e)
    ∧ Server.get_api_entries
        (EntryModal.handleSubmit Iso.toISOString true 0 0 Committed
           (Some "1700000000000") "sun after all" "happy" Sample.journal Sample.loaded
           {| EntryModal.showModal := Some "editEntry";
              EntryModal.editingEntry := Some Sample.second_entry |}).1.1
      = json (<[i := e']> [Sample.first_entry; Sample.second_entry])
    ∧ e' !! "content" = Some "sun after all"
    ∧ e' !! "mood" = Some "happy"
    ∧ (∀ k, k ≠ "content" → k ≠ "mood" → e' !! k = e !! k)
    ∧ e' !! "id" = Some "1700000000000"
    ∧ e' !! "date" = e !! "date"
    ∧ EntryModal.onClose
        {| EntryModal.showModal := Some "editEntry";
           EntryModal.editingEntry := Some Sample.second_entry |}
      = {| EntryModal.showModal := None; EntryModal.editingEntry := None |}.
Proof.
  eapply (modal_edit_keeps_id_and_date Iso.toISOString true 0 0 Committed
            "1700000000000" "sun after all" "happy" Sample.journal _ Sample.loaded _
            {| EntryModal.showModal := Some "editEntry";
               EntryModal.editingEntry := Some Sample.second_entry |}).
  - reflexivity.
  - reflexivity.
  - reflexivity.
  - reflexivity.
Defined.

(** X18: when the modal creates an entry and the mirror grows, the new first
    mirrored record is the one now listed first by the entries route; its id
    is the decimal millisecond clock, its date the ISO form of the clock,
    its content and mood the submitted ones, and it has no other property. *)
Theorem modal_create_assigns_id_and_date (toISOString : Z → string) (net : bool)
    (t_id t_date : Z) (w : WriteOutcome (list obj)) (content mood : string)
    (d d' : Disk) (st st' : AppProvider.State) (m m' : EntryModal.Modal)
    (es : list obj) :
  Server.get_api_entries d = json es →
  EntryModal.handleSubmit toISOString net t_id t_date w None content mood d st m
    = (d', st', m') →
  length (AppProvider.entries st') ≠ length (AppProvider.entries st) →
  ∃ e,
    AppProvider.entries st' = e :: AppProvider.entries st
    ∧ Server.get_api_entries d' = json (e :: es)
    ∧ e = {[ "id" := Number_toString t_id; "date" := toISOString t_date;
             "content" := content; "mood" := mood ]}.
Proof.
  intros [= Hes] Hsubmit Hgrow.
  unfold EntryModal.handleSubmit, AppProvider.addEntry in Hsubmit.
  destruct (DataService.addEntry toISOString net t_id t_date w _ d)
    as [d1 [[e|] log]] eqn:Hadd;
    injection Hsubmit as <- <- <-; simpl in Hgrow; [|done].
  apply DataService_addEntry_ok in Hadd as [-> ->].
  eexists. conjuncts; [reflexivity | by rewrite <- Hes |].
  unfold spread, Server.newEntryDefaults.
  apply map_eq. intros k.
  destruct (decide (k = "content")) as [->|?]; [by simplify_map_eq|].
  destruct (decide (k = "mood")) as [->|?]; [by simplify_map_eq|].
  rewrite lookup_union_r by (by simplify_map_eq).
  destruct (decide (k = "id")) as [->|?]; [by simplify_map_eq|].
  destruct (decide (k = "date")) as [->|?]; by simplify_map_eq.
Qed.

Lemma modal_create_assigns_id_and_date_witness :
  ∃ e,
    AppProvider.entries
      (EntryModal.handleSubmit Iso.toISOString true 1705123456789 1705123456789
         Committed None "walked by the river" "happy"
         {| entries_json := Some [Sample.second_entry]; settings_json := None |}
         (AppProvider.setEntries [Sample.second_entry] AppProvider.initialState)
         {| EntryModal.showModal := Some "newEntry";
            EntryModal.editingEntry := None |}).1.2
    = e :: AppProvider.entries
             (AppProvider.setEntries [Sample.second_entry] AppProvider.initialState)
    ∧ Server.get_api_entries
        (EntryModal.handleSubmit Iso.toISOString true 1705123456789 1705123456789
           Committed None "walked by the river" "happy"
           {| entries_json := Some [Sample.second_entry]; settings_json := None |}
           (AppProvider.setEntries [Sample.second_entry] AppProvider.initialState)
           {| EntryModal.showModal := Some "newEntry";
              EntryModal.editingEntry := None |}).1.1
      = json [e; Sample.second_entry]
    ∧ e = {[ "id" := Number_toString 1705123456789;
             "date" := Iso.toISOString 1705123456789;
             "content" := "walked by the river"; "mood" := "happy" ]}.
Proof.
  eapply (modal_create_assigns_id_and_date Iso.toISOString true 1705123456789
            1705123456789 Committed "walked by the river" "happy"
            {| entries_json := Some [Sample.second_entry]; settings_json := None |} _
            (AppProvider.setEntries [Sample.second_entry] AppProvider.initialState) _
            {| EntryModal.showModal := Some "newEntry";
               EntryModal.editingEntry := None |}).
  - reflexivity.
  - reflexivity.
  - vm_compute. lia.
Defined.

(** ** Settings merged with the defaults *)

Lemma overlay_twice {A : Type} (over under : option A) :
  overlay (overlay over under) under = overlay over under.
Proof. by destruct over, under. Qed.

(** X19: merging with the defaults, as [loadData] does, gives settings with
    all four top-level properties and every default text slot; merging such
    settings again changes nothing. *)
Theorem withDefaults_idempotent (s : Settings) :
  AppProvider.withDefaults (AppProvider.withDefaults s) = AppProvider.withDefaults s
  ∧ is_Some (theme (AppProvider.withDefaults s))
  ∧ is_Some (autoSave (AppProvider.withDefaults s))
  ∧ is_Some (showMoodOnCalendar (AppProvider.withDefaults s))
  ∧ ∀ k, is_Some (customTexts AppProvider.defaultSettings ≫= (.!! k)) →
         is_Some (customTexts (AppProvider.withDefaults s) ≫= (.!! k)).
Proof.
  conjuncts.
  - unfold AppProvider.withDefaults at 1 3. simpl.
    rewrite !overlay_twice. f_equal. f_equal.
    unfold spread. by rewrite <- (assoc_L (∪)), (idemp_L (∪)).
  - simpl. destruct (theme s); by eexists.
  - simpl. destruct (autoSave s); by eexists.
  - simpl. destruct (showMoodOnCalendar s); by eexists.
  - intros k [v Hv]. simpl in *. unfold spread.
    destruct (AppProvider.own_properties (customTexts s) !! k) as [v'|] eqn:Hk.
    + exists v'. by apply lookup_union_Some_l.
    + exists v. by rewrite lookup_union_r.
Qed.

Lemma withDefaults_idempotent_witness :
  is_Some (customTexts (AppProvider.withDefaults Sample.only_dark) ≫= (.!! "heroTitle")).
Proof.
  apply (withDefaults_idempotent Sample.only_dark).
  by eexists.
Defined.

(** X20: if the mirrored settings came out of the merge with the defaults
    and the effect's [DataService.saveSettings] returned [true], then the
    settings route returns them and a later [loadData] installs the same
    settings again. *)
Theorem settings_survive_reload (net net_entries : bool) (w : WriteOutcome Settings)
    (d d' : Disk) (log : list string) (st st' : AppProvider.State) (s0 : Settings) :
  AppProvider.settings st = AppProvider.withDefaults s0 →
  DataService.saveSettings net w (AppProvider.settings st) d = (d', (true, log)) →
  (SettingsEffect.run net w d st).1 = d'
  ∧ Server.get_api_settings d' = json (AppProvider.settings st)
  ∧ AppProvider.settings (AppProvider.loadData net_entries true d' st')
    = AppProvider.settings st.
Proof.
  intros Hs Hsave.
  unfold SettingsEffect.run. rewrite Hsave. simpl.
  apply DataService_saveSettings_ok in Hsave as ->.
  conjuncts; [done|done|].
  unfold AppProvider.loadData.
  destruct (DataService.getEntries net_entries _) as [es l1]. simpl.
  rewrite Hs. apply withDefaults_idempotent.
Qed.

Lemma settings_survive_reload_witness :
  AppProvider.settings
    (AppProvider.loadData true true
       (SettingsEffect.run true Committed Sample.journal
          (AppProvider.setSettings (AppProvider.withDefaults Sample.only_dark)
             Sample.loaded)).1
       AppProvider.initialState)
  = AppProvider.settings
      (AppProvider.setSettings (AppProvider.withDefaults Sample.only_dark) Sample.loaded).
Proof.
  eapply (settings_survive_reload true true Committed Sample.journal _ []
            (AppProvider.setSettings (AppProvider.withDefaults Sample.only_dark)
               Sample.loaded)
            AppProvider.initialState Sample.only_dark).
  - reflexivity.
  - reflexivity.
Defined.

(** * Properties of the pages *)

(** ** Theme and custom texts *)

(** X21: toggling the theme changes nothing but the theme; on settings that
    have a theme, toggling switches it and toggling twice gives the settings
    back; and settings that the merge with the defaults leaves unchanged are
    still such after a toggle. *)
Theorem toggleTheme_twice (s : Settings) :
  is_Some (theme s) →
  Header.toggleTheme (Header.toggleTheme s) = s
  ∧ theme (Header.toggleTheme s) ≠ theme s
  ∧ autoSave (Header.toggleTheme s) = autoSave s
  ∧ showMoodOnCalendar (Header.toggleTheme s) = showMoodOnCalendar s
  ∧ customTexts (Header.toggleTheme s) = customTexts s
  ∧ (AppProvider.withDefaults s = s →
     AppProvider.withDefaults (Header.toggleTheme s) = Header.toggleTheme s).
Proof.
  intros [t Ht]. destruct s as [th a b c]. simpl in Ht. subst th.
  conjuncts; try done.
  - by destruct t.
  - by destruct t.
  - unfold AppProvider.withDefaults. simpl. intros [= Ha Hb Hc].
    unfold Header.toggleTheme. simpl. f_equal; [done|done|]. by f_equal.
Qed.

Lemma toggleTheme_twice_witness :
  Header.toggleTheme (Header.toggleTheme AppProvider.defaultSettings)
  = AppProvider.defaultSettings.
Proof.
  apply (toggleTheme_twice AppProvider.defaultSettings).
  by eexists.
Defined.

Lemma merged_texts_absorb_defaults (own : obj) :
  spread (AppProvider.own_properties (customTexts AppProvider.defaultSettings))
    (spread (AppProvider.own_properties (customTexts AppProvider.defaultSettings)) own)
  = spread (AppProvider.own_properties (customTexts AppProvider.defaultSettings)) own.
Proof. unfold spread. by rewrite <- (assoc_L (∪)), (idemp_L (∪)). Qed.

(** X22: after a text input has set a slot, the slot holds the typed value
    and every other slot holds what the settings had for it, or its default
    when they had nothing; the other settings are untouched.  Setting the
    same slot again keeps only the last value, and edits of two different
    slots give the same settings in either order.  The reset button puts
    back the texts of [defaultSettings]. *)
Theorem setCustomText_slots (slot v : string) (s : Settings) :
  (∃ texts,
     customTexts (SettingsPage.setCustomText slot v s) = Some texts
     ∧ texts !! slot = Some v
     ∧ ∀ k, k ≠ slot →
         texts !! k
         = overlay (customTexts s ≫= (.!! k))
                   (customTexts AppProvider.defaultSettings ≫= (.!! k)))
  ∧ theme (SettingsPage.setCustomText slot v s) = theme s
  ∧ autoSave (SettingsPage.setCustomText slot v s) = autoSave s
  ∧ showMoodOnCalendar (SettingsPage.setCustomText slot v s) = showMoodOnCalendar s
  ∧ (∀ v', SettingsPage.setCustomText slot v' (SettingsPage.setCustomText slot v s)
           = SettingsPage.setCustomText slot v' s)
  ∧ (∀ slot' v', slot' ≠ slot →
       SettingsPage.setCustomText slot' v' (SettingsPage.setCustomText slot v s)
       = SettingsPage.setCustomText slot v (SettingsPage.setCustomText slot' v' s))
  ∧ customTexts (SettingsPage.resetCustomTexts (SettingsPage.setCustomText slot v s))
    = customTexts AppProvider.defaultSettings.
Proof.
  assert (Hnest : ∀ k x (own : obj),
            spread (AppProvider.own_properties (customTexts AppProvider.defaultSettings))
              (<[k := x]>
                 (spread (AppProvider.own_properties
                            (customTexts AppProvider.defaultSettings)) own))
            = <[k := x]>
                (spread (AppProvider.own_properties
                           (customTexts AppProvider.defaultSettings)) own)).
  { intros k x own. unfold spread at 1.
    rewrite <- insert_union_l. f_equal. apply merged_texts_absorb_defaults. }
  conjuncts; try done.
  - eexists. conjuncts; [reflexivity | by simplify_map_eq |].
    intros k Hk. rewrite lookup_insert_ne by done.
    unfold spread. rewrite lookup_union.
    destruct (customTexts s) as [m|]; simpl.
    + by destruct (m !! k), (_ !! k).
    + rewrite lookup_empty. by destruct (_ !! k).
  - intros v'. unfold SettingsPage.setCustomText. simpl. f_equal. f_equal.
    by rewrite Hnest, insert_insert_eq.
  - intros slot' v' Hne. unfold SettingsPage.setCustomText. simpl. f_equal. f_equal.
    rewrite !Hnest. by apply insert_insert_ne.
Qed.

Lemma setCustomText_slots_witness :
  SettingsPage.setCustomText "heroTitle" "My days"
    (SettingsPage.setCustomText "appTitle" "Journal" Sample.only_dark)
  = SettingsPage.setCustomText "appTitle" "Journal"
      (SettingsPage.setCustomText "heroTitle" "My days" Sample.only_dark).
Proof.
  apply (setCustomText_slots "appTitle" "Journal" Sample.only_dark).
  discriminate.
Defined.

(** ** Mood statistics *)

Lemma moodCounts_lookup (es : list obj) (k : string) :
  default 0 (MoodTrackerPage.moodCounts es !! k)
  = length (filter (λ e : obj, property_key (e !! "mood") = k) es).
Proof.
  unfold MoodTrackerPage.moodCounts.
  induction es as [|e es IH] using rev_ind; [done|].
  rewrite foldl_app, filter_app, length_app. simpl.
  destruct (decide (property_key (e !! "mood") = k)) as [Heq|Hne].
  - rewrite Heq, lookup_insert_eq. simpl. rewrite IH.
    rewrite filter_cons_True by done. simpl. lia.
  - rewrite lookup_insert_ne by done. rewrite IH.
    rewrite filter_cons_False by done. simpl. lia.
Qed.

Lemma property_key_is (x : option string) (v : string) :
  v ≠ "undefined" → property_key x = v ↔ x = Some v.
Proof. intros Hv. destruct x as [s|]; simpl; split; congruence. Qed.

(** X23: the statistics list the five moods in the order of [moodOptions],
    each with the number of entries whose mood it is; entries with another
    mood, or with none, are counted for no option. *)
Theorem moodStats_counts (es : list obj) :
  MoodTrackerPage.moodStats es
  = (λ mood, (mood, length (filter (λ e : obj, e !! "mood" = Some (value mood)) es)))
      <$> moodOptions.
Proof.
  unfold MoodTrackerPage.moodStats, moodOptions. simpl.
  rewrite !moodCounts_lookup.
  repeat f_equal; apply list_filter_iff; intros e; by apply property_key_is.
Qed.

Lemma length_filter_all {A : Type} (P : A → Prop) `{∀ x, Decision (P x)} (l : list A) :
  length (filter P l) = length l ↔ Forall P l.
Proof.
  induction l as [|x l IH]; [by split|].
  destruct (decide (P x)) as [Hx|Hx].
  - rewrite filter_cons_True by done. simpl. rewrite Forall_cons.
    split; [intros [= Hl]; split; [done|by apply IH] | intros [_ Hl]; f_equal; by apply IH].
  - rewrite filter_cons_False by done. simpl. rewrite Forall_cons.
    pose proof (length_filter P l). split; [lia | tauto].
Qed.

(** X24: the counts of the statistics never add up to more than the number
    of entries, and they add up to exactly that number when, and only when,
    the mood of every entry is one of the five options. *)
Theorem moodStats_total (es : list obj) :
  (sum_list (snd <$> MoodTrackerPage.moodStats es) ≤ length es)%nat
  ∧ (sum_list (snd <$> MoodTrackerPage.moodStats es) = length es
     ↔ Forall (λ e : obj, ∃ mood, mood ∈ moodOptions ∧ e !! "mood" = Some (value mood)) es).
Proof.
  set (known := λ e : obj, e !! "mood" ∈ (Some ∘ value <$> moodOptions)).
  assert (Hsum : sum_list (snd <$> MoodTrackerPage.moodStats es)
                 = length (filter known es)).
  { rewrite moodStats_counts. unfold moodOptions. simpl.
    induction es as [|e es IH]; [done|].
    rewrite !filter_cons. unfold known at 1. unfold moodOptions. simpl.
    repeat case_decide; simpl in *; simplify_eq; try lia;
      repeat match goal with
             | H : _ ∈ _ :: _ |- _ => apply elem_of_cons in H as [H|H]; simplify_eq
             | H : _ ∈ [] |- _ => by apply elem_of_nil in H
             | H : ¬ (_ ∈ _) |- _ => exfalso; apply H; set_solver
             end. }
  rewrite Hsum. split; [apply length_filter|].
  rewrite length_filter_all. apply Forall_proper; [|done].
  intros e. unfold known. rewrite list_elem_of_fmap. simpl.
  split; intros (mood & H1 & H2); exists mood; by split.
Qed.

(** ** The journal's search *)

Lemma append_cons (c : Ascii.ascii) (s t : string) :
  String c s +:+ t = String c (s +:+ t).
Proof. reflexivity. Qed.

Lemma append_empty (t : string) : "" +:+ t = t.
Proof. reflexivity. Qed.

Lemma prefix_append (t s : string) :
  String.prefix t s = true ↔ ∃ b, s = t +:+ b.
Proof.
  revert s. induction t as [|c t IH]; intros s.
  - split; [intros _; by exists s | by destruct s].
  - destruct s as [|c' s]; simpl; [split; [done | by intros [b [=]]]|].
    destruct (Ascii.ascii_dec c c') as [->|Hne].
    + rewrite IH. split; intros [b Hb]; exists b;
        rewrite append_cons in *; congruence.
    + split; [done | intros [b Hb]; rewrite append_cons in Hb; congruence].
Qed.

Lemma includes_unfold (s t : string) :
  JournalPage.includes s t
  = if String.prefix t s then true
    else match s with
         | EmptyString => false
         | String _ s' => JournalPage.includes s' t
         end.
Proof. by destruct s. Qed.

(** [includes] finds exactly the strings that contain the other one. *)
Lemma includes_substring (s t : string) :
  JournalPage.includes s t = true ↔ ∃ a b, s = a +:+ t +:+ b.
Proof.
  induction s as [|c s IH]; rewrite includes_unfold.
  - destruct (String.prefix t "") eqn:Hp.
    + apply prefix_append in Hp as [b Hb]. split; [intros _; exists "", b; by rewrite append_empty | done].
    + split; [done|]. intros ([|c a] & b & Hab); [|by rewrite append_cons in Hab].
      rewrite append_empty in Hab.
      assert (String.prefix t "" = true); [|congruence].
      apply prefix_append. by exists b.
  - destruct (String.prefix t (String c s)) eqn:Hp.
    + apply prefix_append in Hp as [b Hb]. split; [intros _; exists "", b; by rewrite append_empty | done].
    + rewrite IH. split.
      * intros (a & b & ->). exists (String c a), b. by rewrite append_cons.
      * intros ([|c' a] & b & Hab).
        -- rewrite append_empty in Hab.
           assert (String.prefix t (String c s) = true); [|congruence].
           apply prefix_append. by exists b.
        -- rewrite append_cons in Hab. injection Hab as -> ->. by exists a, b.
Qed.

(** X25: when the journal's filter does not throw, what it shows is the
    mirror filtered by its callback, in the order of the mirror and with an
    entry as many times as the mirror has it; and the callback holds of an
    entry exactly when the entry has a content whose lowercased form
    contains the lowercased search term, and its mood is the selected one
    (any mood for ["all"]). *)
Theorem journal_filter_shows (toLowerCase : string → string)
    (searchTerm selectedMood : string) (es shown : list obj) :
  JournalPage.filteredEntries toLowerCase searchTerm selectedMood es = Some shown →
  shown
  = filter (λ e : obj,
              JournalPage.matches toLowerCase searchTerm selectedMood e = Some true) es
  ∧ ∀ e : obj,
      JournalPage.matches toLowerCase searchTerm selectedMood e = Some true
      ↔ ∃ content,
          e !! "content" = Some content
          ∧ (∃ a b, toLowerCase content = a +:+ toLowerCase searchTerm +:+ b)
          ∧ (selectedMood = "all" ∨ e !! "mood" = Some selectedMood).
Proof.
  intros Hshown. split.
  - revert shown Hshown. induction es as [|x es IH]; intros shown; simpl.
    + by intros [= <-].
    + destruct (JournalPage.matches _ _ _ x) as [keep|] eqn:Hx; [|done].
      destruct (JournalPage.filteredEntries _ _ _ es) as [rest|]; [|done].
      intros [= <-]. rewrite filter_cons, Hx, (IH rest eq_refl).
      destruct keep; [by rewrite decide_True | by rewrite decide_False].
  - intros e. unfold JournalPage.matches.
    destruct (e !! "content") as [content|]; [|split; [done | by intros (? & [=] & _)]].
    split.
    + intros [= Hkeep].
      rewrite andb_true_iff, orb_true_iff, includes_substring,
        !bool_decide_eq_true in Hkeep.
      by exists content.
    + intros (content' & [= <-] & Hsub & Hmood). f_equal.
      by rewrite andb_true_iff, orb_true_iff, includes_substring,
        !bool_decide_eq_true.
Qed.

Lemma journal_filter_shows_witness :
  [Sample.first_entry]
  = filter (λ e : obj,
              JournalPage.matches Ascii_lower.toLowerCase "RIVER" "all" e = Some true)
      [Sample.first_entry; Sample.second_entry].
Proof.
  apply (journal_filter_shows Ascii_lower.toLowerCase "RIVER" "all"
           [Sample.first_entry; Sample.second_entry] [Sample.first_entry]).
  reflexivity.
Defined.

(** X26: the journal's filter throws exactly when some mirrored entry has no
    [content]. *)
Theorem journal_filter_throws (toLowerCase : string → string)
    (searchTerm selectedMood : string) (es : list obj) :
  JournalPage.filteredEntries toLowerCase searchTerm selectedMood es = None
  ↔ ∃ e : obj, e ∈ es ∧ e !! "content" = None.
Proof.
  induction es as [|x es IH]; simpl.
  - split; [done | intros (e & He & _); by apply elem_of_nil in He].
  - unfold JournalPage.matches.
    destruct (x !! "content") as [content|] eqn:Hc.
    + destruct (JournalPage.filteredEntries _ _ _ es) as [rest|].
      * split; [done|]. intros (e & He & Hnone).
        apply elem_of_cons in He as [->|He]; [congruence|].
        assert (Some rest = None) as Hn; [|done].
        apply IH. by exists e.
      * split; [|done]. intros _.
        destruct (proj1 IH eq_refl) as (e & He & Hnone).
        exists e. split; [by right | done].
    + split; [|done]. intros _. exists x. split; [by left | done].
Qed.

(** X27: with a search term whose lowercase form is empty and the mood
    filter on ["all"], the journal shows every mirrored entry, provided each
    has a [content]. *)
Theorem journal_filter_shows_all (toLowerCase : string → string)
    (searchTerm : string) (es : list obj) :
  toLowerCase searchTerm = "" →
  Forall (λ e : obj, is_Some (e !! "content")) es →
  JournalPage.filteredEntries toLowerCase searchTerm "all" es = Some es.
Proof.
  intros Hempty Hall. induction Hall as [|x es [content Hc] _ IH]; [done|].
  simpl. unfold JournalPage.matches. rewrite Hc, IH, Hempty.
  assert (JournalPage.includes (toLowerCase content) "" = true) as ->; [|done].
  apply includes_substring. by exists "", (toLowerCase content).
Qed.

Lemma journal_filter_shows_all_witness :
  JournalPage.filteredEntries Ascii_lower.toLowerCase "" "all"
    [Sample.first_entry; Sample.second_entry]
  = Some [Sample.first_entry; Sample.second_entry].
Proof.
  apply (journal_filter_shows_all Ascii_lower.toLowerCase "").
  - reflexivity.
  - repeat constructor; by eexists.
Defined.

(** ** The calendar's entries per day *)

(** X28: the entries that a calendar cell gets for a day are the mirrored
    entries whose date falls on that day, in the order of the mirror; the
    dots and the ["+N"] of the cell account for all of them. *)
Theorem calendar_dayEntries (dateKey : option string → string) (es : list obj)
    (dateString : string) :
  CalendarPage.dayEntries dateKey es dateString
  = filter (λ e : obj, dateKey (e !! "date") = dateString) es
  ∧ length (CalendarPage.dots dateKey es dateString)
    + default 0 (CalendarPage.overflow dateKey es dateString)
    = length (CalendarPage.dayEntries dateKey es dateString).
Proof.
  split.
  - unfold CalendarPage.dayEntries, CalendarPage.entriesByDate.
    induction es as [|e es IH] using rev_ind; [done|].
    rewrite foldl_app, filter_app. simpl.
    destruct (decide (dateKey (e !! "date") = dateString)) as [Heq|Hne].
    + rewrite Heq, lookup_insert_eq. simpl. rewrite IH.
      by rewrite (filter_cons_True _ e) by done.
    + rewrite lookup_insert_ne by done. rewrite IH.
      rewrite (filter_cons_False _ e) by done. by rewrite app_nil_r.
  - unfold CalendarPage.dots, CalendarPage.overflow.
    rewrite length_take. case_decide; cbn [from_option]; unfold id; lia.
Qed.

(** ** The calendar's month grid *)

Lemma leap_spec (y : Z) :
  Gregorian.leap y = true
  ↔ (y `mod` 4 = 0 ∧ (y `mod` 100 ≠ 0 ∨ y `mod` 400 = 0))%Z.
Proof.
  unfold Gregorian.leap.
  rewrite andb_true_iff, orb_true_iff, negb_true_iff, !Z.eqb_eq, Z.eqb_neq. tauto.
Qed.

Lemma leap_cases (y : Z) :
  (Gregorian.leap y = false
   ∧ ¬ (y `mod` 4 = 0 ∧ (y `mod` 100 ≠ 0 ∨ y `mod` 400 = 0))%Z)
  ∨ (Gregorian.leap y = true
     ∧ (y `mod` 4 = 0 ∧ (y `mod` 100 ≠ 0 ∨ y `mod` 400 = 0))%Z).
Proof.
  pose proof (leap_spec y) as Hl.
  destruct (Gregorian.leap y); [right | left]; split; try done.
  - by apply Hl.
  - intros H. apply Hl in H. discriminate H.
Qed.

Lemma month_cases (m : Z) :
  (1 ≤ m ≤ 12)%Z →
  (m = 1 ∨ m = 2 ∨ m = 3 ∨ m = 4 ∨ m = 5 ∨ m = 6 ∨ m = 7 ∨ m = 8 ∨ m = 9 ∨ m = 10
   ∨ m = 11 ∨ m = 12)%Z.
Proof. lia. Qed.

(** The day count of a year of the era and a day of that year is a day of
    the era, and the year is read back from it. *)
Lemma year_of_era (yoe doy : Z) :
  (0 ≤ yoe < 400)%Z → (0 ≤ doy)%Z →
  (doy ≤ 364 ∨ (doy = 365 ∧ yoe `mod` 4 = 3 ∧ (yoe `mod` 100 ≠ 99 ∨ yoe = 399)))%Z →
  (0 ≤ yoe * 365 + yoe / 4 - yoe / 100 + doy < 146097
   ∧ (yoe * 365 + yoe / 4 - yoe / 100 + doy
      - (yoe * 365 + yoe / 4 - yoe / 100 + doy) / 1460
      + (yoe * 365 + yoe / 4 - yoe / 100 + doy) / 36524
      - (yoe * 365 + yoe / 4 - yoe / 100 + doy) / 146096) / 365 = yoe)%Z.
Proof. intros Hy Hd Hleap. Z.div_mod_to_equations. lia. Qed.

(** A day of the era has a year of the era and a day of that year. *)
Lemma day_of_era_parts (doe : Z) :
  (0 ≤ doe < 146097)%Z →
  ∃ yoe doy : Z,
    (yoe = (doe - doe / 1460 + doe / 36524 - doe / 146096) / 365
     ∧ doy = doe - (365 * yoe + yoe / 4 - yoe / 100)
     ∧ 0 ≤ yoe < 400 ∧ 0 ≤ doy
     ∧ (doy ≤ 364 ∨ (doy = 365 ∧ yoe `mod` 4 = 3 ∧ (yoe `mod` 100 ≠ 99 ∨ yoe = 399))))%Z.
Proof.
  intros Hd. eexists _, _. split; [reflexivity|]. split; [reflexivity|].
  Z.div_mod_to_equations. lia.
Qed.

Lemma civil_from_days_at (era doe : Z) :
  (0 ≤ doe < 146097)%Z →
  Iso.civil_from_days (era * 146097 + doe - 719468)
  = (let yoe := (doe - doe / 1460 + doe / 36524 - doe / 146096) / 365 in
     let doy := doe - (365 * yoe + yoe / 4 - yoe / 100) in
     let mp := (5 * doy + 2) / 153 in
     let m := if mp <? 10 then mp + 3 else mp - 9 in
     ((if m <=? 2 then yoe + era * 400 + 1 else yoe + era * 400), m,
      doy - (153 * mp + 2) / 5 + 1))%Z.
Proof.
  intros Hdoe. unfold Iso.civil_from_days. cbv zeta.
  replace (era * 146097 + doe - 719468 + 719468)%Z with (doe + era * 146097)%Z by lia.
  assert (Hera : ((doe + era * 146097) / 146097 = era)%Z).
  { rewrite Z.div_add by lia. rewrite Z.div_small by lia. lia. }
  rewrite !Hera.
  replace (doe + era * 146097 - era * 146097)%Z with doe by lia.
  reflexivity.
Qed.

Lemma days_from_civil_at (y m d era yoe mp : Z) :
  (if m <=? 2 then y - 1 else y)%Z = (yoe + era * 400)%Z →
  (0 ≤ yoe < 400)%Z →
  (if 2 <? m then m - 3 else m + 9)%Z = mp →
  JSDate.days_from_civil y m d
  = (era * 146097
     + (yoe * 365 + yoe / 4 - yoe / 100 + ((153 * mp + 2) / 5 + d - 1)) - 719468)%Z.
Proof.
  intros Hy Hyoe Hmp. unfold JSDate.days_from_civil. cbv zeta.
  rewrite Hy, Hmp.
  assert (Hera : ((yoe + era * 400) / 400 = era)%Z).
  { rewrite Z.div_add by lia. rewrite Z.div_small by lia. lia. }
  rewrite !Hera.
  replace (yoe + era * 400 - era * 400)%Z with yoe by lia.
  reflexivity.
Qed.

(** The day of the month counts on from the first. *)
Lemma days_from_civil_day (y m d : Z) :
  JSDate.days_from_civil y m d = (JSDate.days_from_civil y m 1 + d - 1)%Z.
Proof. unfold JSDate.days_from_civil. cbv zeta. lia. Qed.

(** The day number of a date gives the date back. *)
Lemma civil_of_days_from_civil (y m d : Z) :
  (1 ≤ m ≤ 12)%Z → (1 ≤ d ≤ Gregorian.days_in_month y m)%Z →
  Iso.civil_from_days (JSDate.days_from_civil y m d) = (y, m, d).
Proof.
  intros Hm Hd.
  unfold Gregorian.days_in_month in Hd.
  pose proof (leap_cases y) as Hleap.
  remember (if m <=? 2 then y - 1 else y)%Z as y1 eqn:Ey1.
  remember (y1 / 400)%Z as era eqn:Eera.
  remember (y1 - era * 400)%Z as yoe eqn:Eyoe.
  remember (if 2 <? m then m - 3 else m + 9)%Z as mp eqn:Emp.
  remember ((153 * mp + 2) / 5 + d - 1)%Z as doy eqn:Edoy.
  assert (Hyoe : (0 ≤ yoe < 400 ∧ y1 = yoe + era * 400)%Z).
  { subst yoe era. Z.div_mod_to_equations. lia. }
  destruct Hyoe as [Hyoe Hy1].
  assert (HF : JSDate.days_from_civil y m d
               = (era * 146097 + (yoe * 365 + yoe / 4 - yoe / 100 + doy) - 719468)%Z).
  { subst doy. apply days_from_civil_at; [by rewrite <- Ey1 | done | done]. }
  assert (Hdoy : (0 ≤ doy
                  ∧ (doy ≤ 364
                     ∨ (doy = 365 ∧ yoe `mod` 4 = 3 ∧ (yoe `mod` 100 ≠ 99 ∨ yoe = 399)))
                  ∧ (5 * doy + 2) / 153 = mp
                  ∧ (if mp <? 10 then mp + 3 else mp - 9) = m
                  ∧ (if m <=? 2 then yoe + era * 400 + 1 else yoe + era * 400) = y)%Z).
  { destruct (month_cases m Hm)
      as [->|[->|[->|[->|[->|[->|[->|[->|[->|[->|[->| ->]]]]]]]]]]];
      simpl in *; subst mp; simpl in *;
      destruct Hleap as [[Hleap Hrule]|[Hleap Hrule]]; try rewrite Hleap in Hd;
      subst doy; subst y1; Z.div_mod_to_equations; lia. }
  destruct Hdoy as (Hdoy0 & Hdoy1 & Hmp & Hmonth & Hyear).
  destruct (year_of_era yoe doy Hyoe Hdoy0 Hdoy1) as [Hdoe Hy].
  rewrite HF, (civil_from_days_at era _ Hdoe). cbv zeta.
  rewrite !Hy.
  replace (yoe * 365 + yoe / 4 - yoe / 100 + doy - (365 * yoe + yoe / 4 - yoe / 100))%Z
    with doy by lia.
  rewrite !Hmp, Hmonth, Hyear. f_equal. subst doy. lia.
Qed.

(** The first of the following month comes a month's length after the first
    of a month. *)
Lemma days_from_civil_next_month (y m : Z) :
  (1 ≤ m ≤ 12)%Z →
  JSDate.days_from_civil (y + m / 12) (m `mod` 12 + 1) 1
  = (JSDate.days_from_civil y m 1 + Gregorian.days_in_month y m)%Z.
Proof.
  intros Hm. unfold Gregorian.days_in_month.
  pose proof (leap_cases y) as Hleap.
  destruct (month_cases m Hm)
    as [->|[->|[->|[->|[->|[->|[->|[->|[->|[->|[->| ->]]]]]]]]]]];
    simpl; unfold JSDate.days_from_civil; simpl; cbv zeta;
    destruct Hleap as [[Hleap Hrule]|[Hleap Hrule]]; try rewrite Hleap;
    Z.div_mod_to_equations; lia.
Qed.

(** Every day number is the day number of its own date, a date with a month
    from 1 to 12 and a day within that month. *)
Lemma days_from_civil_of_civil (z y m d : Z) :
  Iso.civil_from_days z = (y, m, d) →
  (1 ≤ m ≤ 12)%Z ∧ (1 ≤ d ≤ Gregorian.days_in_month y m)%Z
  ∧ JSDate.days_from_civil y m d = z.
Proof.
  remember ((z + 719468) / 146097)%Z as era eqn:Eera.
  remember (z + 719468 - era * 146097)%Z as doe eqn:Edoe.
  assert (Hdoe : (0 ≤ doe < 146097)%Z).
  { subst doe era. Z.div_mod_to_equations. lia. }
  replace z with (era * 146097 + doe - 719468)%Z by lia.
  rewrite (civil_from_days_at era doe Hdoe). cbv zeta.
  destruct (day_of_era_parts doe Hdoe) as (yoe & doy & Eyoe & Edoy & Hyoe & Hdoy0 & Hdoy1).
  rewrite <- !Eyoe, <- !Edoy.
  remember ((5 * doy + 2) / 153)%Z as mp eqn:Emp.
  assert (Hmp : (0 ≤ mp ≤ 11)%Z) by (subst mp; Z.div_mod_to_equations; lia).
  intros [= <- <- <-].
  assert (Hcases : (mp = 0 ∨ mp = 1 ∨ mp = 2 ∨ mp = 3 ∨ mp = 4 ∨ mp = 5 ∨ mp = 6 ∨ mp = 7
                    ∨ mp = 8 ∨ mp = 9 ∨ mp = 10 ∨ mp = 11)%Z) by lia.
  assert (Hdoe' : doe = (yoe * 365 + yoe / 4 - yoe / 100 + doy)%Z) by lia.
  pose proof (leap_cases
                (if (if mp <? 10 then mp + 3 else mp - 9) <=? 2
                 then yoe + era * 400 + 1 else yoe + era * 400)%Z) as Hleap.
  unfold Gregorian.days_in_month.
  destruct Hcases as [E|[E|[E|[E|[E|[E|[E|[E|[E|[E|[E|E]]]]]]]]]]];
    rewrite E in *; simpl in *;
    (split; [lia|]);
    (split;
     [ destruct Hleap as [[Hleap Hrule]|[Hleap Hrule]]; try rewrite Hleap;
       clear Hdoe'; Z.div_mod_to_equations; lia
     | erewrite days_from_civil_at;
       [ | simpl; reflexivity || (instantiate (1 := era); instantiate (1 := yoe); lia)
         | done | simpl; reflexivity ];
       clear Hleap; Z.div_mod_to_equations; lia ]).
Qed.

Lemma days_in_month_range (y m : Z) : (28 ≤ Gregorian.days_in_month y m ≤ 31)%Z.
Proof. unfold Gregorian.days_in_month. repeat case_match; lia. Qed.

Lemma Date_day (year monthIndex day : Z) :
  JSDate.Date year monthIndex day = (JSDate.Date year monthIndex 1 + day - 1)%Z.
Proof. unfold JSDate.Date, JSDate.MakeDay. lia. Qed.

Lemma Date_first (year monthIndex : Z) :
  (0 ≤ monthIndex ≤ 11)%Z →
  JSDate.Date year monthIndex 1
  = JSDate.days_from_civil
      (if (0 <=? year) && (year <=? 99) then 1900 + year else year)%Z
      (monthIndex + 1) 1.
Proof.
  intros HM. unfold JSDate.Date, JSDate.MakeDay. cbv zeta.
  rewrite Z.div_small, Z.mod_small by lia.
  rewrite Z.add_0_r. lia.
Qed.

Lemma Date_next_first (year monthIndex : Z) :
  (0 ≤ monthIndex ≤ 11)%Z →
  JSDate.Date year (monthIndex + 1) 1
  = (JSDate.Date year monthIndex 1
     + Gregorian.days_in_month
         (if (0 <=? year) && (year <=? 99) then 1900 + year else year)
         (monthIndex + 1))%Z.
Proof.
  intros HM. rewrite (Date_first _ _ HM).
  unfold JSDate.Date, JSDate.MakeDay. cbv zeta.
  rewrite days_from_civil_next_month by lia. lia.
Qed.

Lemma getters_of_date (y m d : Z) :
  (1 ≤ m ≤ 12)%Z → (1 ≤ d ≤ Gregorian.days_in_month y m)%Z →
  JSDate.getFullYear (JSDate.days_from_civil y m 1 + (d - 1)) = y
  ∧ JSDate.getMonth (JSDate.days_from_civil y m 1 + (d - 1)) = (m - 1)%Z
  ∧ JSDate.getDate (JSDate.days_from_civil y m 1 + (d - 1)) = d.
Proof.
  intros Hm Hd.
  replace (JSDate.days_from_civil y m 1 + (d - 1))%Z
    with (JSDate.days_from_civil y m d) by (rewrite (days_from_civil_day y m d); lia).
  unfold JSDate.getFullYear, JSDate.getMonth, JSDate.getDate.
  by rewrite civil_of_days_from_civil.
Qed.

(** X29: the grid of a month starts with one empty cell for each weekday
    before the first of the month, at most six, and goes on with one cell
    for each day of the month, 28 to 31 of them, in order: cell [k] after
    the empty ones holds the day [k + 1] of the displayed month and year,
    and its place in the rows of seven is the column of its weekday.  The
    day after the last cell is the first of a month.  The displayed year is
    the year of the date, except that a year from 0 to 99 is displayed as
    that year of the twentieth century; in the other years the date itself
    is in the grid. *)
Theorem calendar_grid (date : Z) :
  let y := JSDate.getFullYear date in
  let Y := (if (0 <=? y) && (y <=? 99) then 1900 + y else y)%Z in
  let M := JSDate.getMonth date in
  let first := JSDate.Date y M 1 in
  let offset := JSDate.getDay first in
  let n := Gregorian.days_in_month Y (M + 1) in
  (0 ≤ M ≤ 11)%Z ∧ (0 ≤ offset ≤ 6)%Z ∧ (28 ≤ n ≤ 31)%Z
  ∧ CalendarPage.getDaysInMonth date
    = (replicate (Z.to_nat offset) None ++ ((λ k, Some (first + k)%Z) <$> seqZ 0 n))%list
  ∧ (∀ k, (0 ≤ k < n)%Z →
       JSDate.getFullYear (first + k) = Y
       ∧ JSDate.getMonth (first + k) = M
       ∧ JSDate.getDate (first + k) = (k + 1)%Z
       ∧ JSDate.getDay (first + k) = ((offset + k) `mod` 7)%Z)
  ∧ JSDate.getDate (first + n) = 1%Z
  ∧ (Y = y →
     (1 ≤ JSDate.getDate date ≤ n)%Z ∧ (first + (JSDate.getDate date - 1))%Z = date).
Proof.
  intros y Y M first offset n.
  destruct (Iso.civil_from_days date) as [[y0 m0] d0] eqn:Hc.
  assert (Hy : y = y0) by (unfold y, JSDate.getFullYear; by rewrite Hc).
  assert (HM : M = (m0 - 1)%Z) by (unfold M, JSDate.getMonth; by rewrite Hc).
  assert (Hd : JSDate.getDate date = d0) by (unfold JSDate.getDate; by rewrite Hc).
  destruct (days_from_civil_of_civil _ _ _ _ Hc) as (Hm0 & Hd0 & HF).
  assert (HMr : (0 ≤ M ≤ 11)%Z) by lia.
  assert (Hfirst : first = JSDate.days_from_civil Y (M + 1) 1)
    by (by apply Date_first).
  pose proof (days_in_month_range Y (M + 1)) as Hn. fold n in Hn.
  assert (Hcell : ∀ k, (0 ≤ k < n)%Z →
            JSDate.getFullYear (first + k) = Y
            ∧ JSDate.getMonth (first + k) = M
            ∧ JSDate.getDate (first + k) = (k + 1)%Z).
  { intros k Hk. rewrite Hfirst.
    destruct (getters_of_date Y (M + 1) (k + 1)) as (H1 & H2 & H3); [lia | fold n; lia |].
    replace (k + 1 - 1)%Z with k in * by lia.
    rewrite H1, H2, H3. repeat split; lia. }
  split; [lia|].
  split; [unfold offset, JSDate.getDay; pose proof (Z.mod_pos_bound (first + 4) 7); lia|].
  split; [lia|].
  split; [|split; [|split]].
  - unfold CalendarPage.getDaysInMonth. fold y M first offset.
    assert (Hlast : JSDate.getDate (JSDate.Date y (M + 1) 0) = n).
    { rewrite (Date_day y (M + 1) 0), (Date_next_first y M HMr). fold Y n first.
      replace (first + n + 0 - 1)%Z with (first + (n - 1))%Z by lia.
      destruct (Hcell (n - 1)%Z) as (_ & _ & H3); lia. }
    rewrite Hlast. f_equal.
    change (seqZ 1 n) with (seqZ (1 + 0) n).
    rewrite <- (fmap_add_seqZ 1 0 n), <- list_fmap_compose.
    apply list_fmap_ext. intros i k _. simpl. f_equal.
    rewrite (Date_day y M (1 + k)). fold first. lia.
  - intros k Hk. destruct (Hcell k Hk) as (H1 & H2 & H3).
    split; [done|]. split; [done|]. split; [done|].
    unfold offset, JSDate.getDay. Z.div_mod_to_equations. lia.
  - unfold first, n, Y. rewrite <- (Date_next_first y M HMr).
    unfold JSDate.Date, JSDate.MakeDay. cbv zeta. fold Y.
    match goal with
    | |- context [(?X + 1 - 1)%Z] => replace (X + 1 - 1)%Z with (X + (1 - 1))%Z by lia
    end.
    apply getters_of_date.
    + pose proof (Z.mod_pos_bound (M + 1) 12). lia.
    + pose proof (days_in_month_range (Y + (M + 1) / 12) ((M + 1) `mod` 12 + 1)). lia.
  - intros HY. rewrite Hd. split.
    + unfold n. rewrite HY, Hy, HM. replace (m0 - 1 + 1)%Z with m0 by lia. done.
    + rewrite Hfirst, HY, Hy, HM. replace (m0 - 1 + 1)%Z with m0 by lia.
      rewrite <- HF, (days_from_civil_day y0 m0 d0). lia.
Qed.

Lemma calendar_grid_witness :
  (1 ≤ JSDate.getDate 19754 ≤ Gregorian.days_in_month 2024 (JSDate.getMonth 19754 + 1))%Z
  ∧ (JSDate.Date (JSDate.getFullYear 19754) (JSDate.getMonth 19754) 1
     + (JSDate.getDate 19754 - 1))%Z = 19754%Z.
Proof.
  apply (calendar_grid 19754).
  reflexivity.
Defined.

(** X30: from a date in a year above 100, the button for the next month
    leads to the first of the following month (January of the next year
    after December), the button for the previous month to the first of the
    preceding month (December of the year before after January), and
    either button followed by the other leads to the first of the month of
    the date. *)
Theorem calendar_month_buttons (currentDate : Z) :
  (100 < JSDate.getFullYear currentDate)%Z →
  let y := JSDate.getFullYear currentDate in
  let M := JSDate.getMonth currentDate in
  JSDate.getDate (CalendarPage.nextMonth currentDate) = 1%Z
  ∧ JSDate.getMonth (CalendarPage.nextMonth currentDate) = ((M + 1) `mod` 12)%Z
  ∧ JSDate.getFullYear (CalendarPage.nextMonth currentDate)
    = (if (M =? 11)%Z then y + 1 else y)%Z
  ∧ JSDate.getDate (CalendarPage.previousMonth currentDate) = 1%Z
  ∧ JSDate.getMonth (CalendarPage.previousMonth currentDate) = ((M - 1) `mod` 12)%Z
  ∧ JSDate.getFullYear (CalendarPage.previousMonth currentDate)
    = (if (M =? 0)%Z then y - 1 else y)%Z
  ∧ CalendarPage.previousMonth (CalendarPage.nextMonth currentDate) = JSDate.Date y M 1
  ∧ CalendarPage.nextMonth (CalendarPage.previousMonth currentDate) = JSDate.Date y M 1.
Proof.
  intros Hy y M. fold y in Hy.
  destruct (Iso.civil_from_days currentDate) as [[y0 m0] d0] eqn:Hc.
  destruct (days_from_civil_of_civil _ _ _ _ Hc) as (Hm0 & _ & _).
  assert (HM : (0 ≤ M ≤ 11)%Z).
  { unfold M, JSDate.getMonth. rewrite Hc. simpl. lia. }
  unfold CalendarPage.nextMonth, CalendarPage.previousMonth. fold y M.
  clear Hc. clearbody y M.
  assert (Hgo : ∀ delta, (delta = 1 ∨ delta = -1)%Z →
            JSDate.Date y (M + delta) 1
            = JSDate.days_from_civil (y + (M + delta) / 12) ((M + delta) `mod` 12 + 1) 1
            ∧ JSDate.getFullYear (JSDate.Date y (M + delta) 1) = (y + (M + delta) / 12)%Z
            ∧ JSDate.getMonth (JSDate.Date y (M + delta) 1) = ((M + delta) `mod` 12)%Z
            ∧ JSDate.getDate (JSDate.Date y (M + delta) 1) = 1%Z).
  { intros delta Hdelta.
    assert (HD : JSDate.Date y (M + delta) 1
                 = (JSDate.days_from_civil (y + (M + delta) / 12)
                      ((M + delta) `mod` 12 + 1) 1 + (1 - 1))%Z).
    { unfold JSDate.Date, JSDate.MakeDay. cbv zeta.
      replace ((0 <=? y) && (y <=? 99))%Z with false by lia. lia. }
    split; [rewrite HD; lia|]. rewrite HD.
    pose proof (Z.mod_pos_bound (M + delta) 12).
    pose proof (days_in_month_range (y + (M + delta) / 12) ((M + delta) `mod` 12 + 1)).
    destruct (getters_of_date (y + (M + delta) / 12) ((M + delta) `mod` 12 + 1) 1)
      as (H1 & H2 & H3); [lia | lia |].
    rewrite H1, H2, H3. repeat split; lia. }
  destruct (Hgo 1%Z) as (Hn0 & Hn1 & Hn2 & Hn3); [by left|].
  destruct (Hgo (-1)%Z) as (Hp0 & Hp1 & Hp2 & Hp3); [by right|].
  assert (Hback : ∀ y' M', (100 ≤ y')%Z → (0 ≤ M' ≤ 11)%Z →
            JSDate.Date y' M' 1 = JSDate.days_from_civil y' (M' + 1) 1).
  { intros y' M' Hy' HM'. rewrite (Date_first _ _ HM').
    by replace ((0 <=? y') && (y' <=? 99))%Z with false by lia. }
  assert (Hshift : ∀ y' M', (100 ≤ y')%Z →
            JSDate.Date y' M' 1
            = JSDate.days_from_civil (y' + M' / 12) (M' `mod` 12 + 1) 1).
  { intros y' M' Hy'. unfold JSDate.Date, JSDate.MakeDay. cbv zeta.
    replace ((0 <=? y') && (y' <=? 99))%Z with false by lia. lia. }
  replace (M - 1)%Z with (M + -1)%Z by lia.
  conjuncts; try done.
  - rewrite Hn1. case_match; Z.div_mod_to_equations; lia.
  - rewrite Hp1. case_match; Z.div_mod_to_equations; lia.
  - rewrite Hn1, Hn2, (Hback y M) by lia.
    rewrite Hshift by (Z.div_mod_to_equations; lia).
    f_equal; Z.div_mod_to_equations; lia.
  - rewrite Hp1, Hp2, (Hback y M) by lia.
    rewrite Hshift by (Z.div_mod_to_equations; lia).
    f_equal; Z.div_mod_to_equations; lia.
Qed.

Lemma calendar_month_buttons_witness :
  CalendarPage.previousMonth (CalendarPage.nextMonth 19754)
  = JSDate.Date (JSDate.getFullYear 19754) (JSDate.getMonth 19754) 1.
Proof.
  apply (calendar_month_buttons 19754).
  vm_compute. reflexivity.
Defined.
